(** * PCF8574 8-channel output module (mycodo/outputs/pcf8574.py)

    A shallow embedding of the [PCF8574] register driver and of
    [OutputModule.output_switch] / [OutputModule.is_on], together with the
    properties of the channel controller that the specification states.

    Python values [None], [True], [False] held by [list_states] are embedded
    as [option bool]; the state file, the lock files and the I2C bus form an
    explicit world that every operation threads through a small
    state-and-exception monad. *)

From stdpp Require Import base option list gmap strings.
From Stdlib Require Import ZArith Lia Ascii.

Local Open Scope string_scope.
Local Open Scope list_scope.
Local Open Scope Z_scope.

(** ** Python values of the state list *)

(** One entry of [list_states]: [None], [True] or [False]. *)
Abbreviation slot := (option bool) (only parsing).

(** Truth value of an entry as tested by [if val:]. *)
Definition truthy (val : slot) : bool :=
  match val with
  | Some true => true
  | _ => false
  end.

(** ['{}'.format(write_state)] for an entry of the list. *)
Definition format_slot (write_state : slot) : string :=
  match write_state with
  | None => "None"
  | Some true => "True"
  | Some false => "False"
  end.

(** ** Text files as Python delivers them *)

Definition LF : ascii := ascii_of_nat 10.
Definition CR : ascii := ascii_of_nat 13.

(** Text mode with the default [newline=None]: ["\r\n"] and a lone ["\r"]
    both reach the program as ["\n"]. *)
Fixpoint universal_newlines (text : string) : string :=
  match text with
  | EmptyString => EmptyString
  | String c rest =>
      if Ascii.eqb c CR then
        match rest with
        | String c' rest' =>
            if Ascii.eqb c' LF then String LF (universal_newlines rest')
            else String LF (universal_newlines rest)
        | EmptyString => String LF EmptyString
        end
      else String c (universal_newlines rest)
  end.

(** [for line in f]: each line keeps its terminating ["\n"]; the last line
    has none when the text does not end with one.  [cur] is the line being
    accumulated. *)
Fixpoint iter_lines (cur : string) (text : string) : list string :=
  match text with
  | EmptyString => if String.eqb cur "" then [] else [cur]
  | String c rest =>
      if Ascii.eqb c LF then (cur +:+ String LF EmptyString) :: iter_lines "" rest
      else iter_lines (cur +:+ String c EmptyString) rest
  end.

Definition file_lines (text : string) : list string :=
  iter_lines "" (universal_newlines text).

(** [line[:-1]]: everything but the last character (empty stays empty). *)
Fixpoint drop_last (line : string) : string :=
  match line with
  | EmptyString => EmptyString
  | String c rest =>
      match rest with
      | EmptyString => EmptyString
      | String _ _ => String c (drop_last rest)
      end
  end.

(** Body of the read loop, lines 132-138: a recognised token is appended,
    any other line is skipped. *)
Definition read_line (list_states : list slot) (line : string) : list slot :=
  let read_state := drop_last line in
  if String.eqb read_state "None" then list_states ++ [None]
  else if String.eqb read_state "True" then list_states ++ [Some true]
  else if String.eqb read_state "False" then list_states ++ [Some false]
  else list_states.

(** The whole read loop over the text of the state file. *)
Definition read_states (text : string) : list slot :=
  fold_left read_line (file_lines text) [].

(** What the write loop, lines 164-165, leaves in the file. *)
Fixpoint write_states (list_states : list slot) : string :=
  match list_states with
  | [] => ""
  | write_state :: rest =>
      (format_slot write_state +:+ String LF EmptyString) +:+ write_states rest
  end.

(** ** Packing of the port, lines 242-245 *)

(** The [for i, val in enumerate(value)] loop; [i] is the running index and
    [new_state] the accumulator.  [1 << 7 - i] parses as [1 << (7 - i)]; the
    setter has asserted [len(value) == 8], so the shift count is never
    negative where the loop runs. *)
Fixpoint port_loop (i : Z) (value : list slot) (new_state : Z) : Z :=
  match value with
  | [] => new_state
  | val :: rest =>
      port_loop (i + 1) rest
        (if truthy val then Z.lor new_state (Z.shiftl 1 (7 - i)) else new_state)
  end.

Definition port_byte (value : list slot) : Z := port_loop 0 value 0.

(** ** The controller object and its world *)

(** [PCF8574]: the chip handle built in [__init__], lines 224-227. *)
Record PCF8574 : Type := mkPCF8574 {
  bus_no : Z;
  address : Z
}.

(** The fields of [OutputModule] that [output_switch] and [is_on] use.  The
    embedding covers a controller whose I2C location is configured, so that
    [setup_output] (lines 97-103) has bound [lock_file], [state_file] and
    [sensor]. *)
Record OutputModule : Type := mkOutputModule {
  output_setup : bool;
  channel : option Z;
  output_on_state : bool;
  output_state : slot;
  lock_file : string;
  state_file : string;
  sensor : PCF8574
}.

Inductive resource : Type :=
  | File (path : string)
  | Chip (addr : Z).

(** Exceptions the modelled statements can raise. *)
Inductive exn : Type :=
  | AssertionError
  | IndexError
  | TypeError
  | OSError (r : resource).

(** Messages handed to [self.logger]. *)
Inductive message : Type :=
  | NoChannel
  | ReadStates (path : string) (list_states : list slot)
  | Not8Elements
  | UnrecognizedState (state : string)
  | WriteStates (path : string) (list_states : list slot)
  | StateChangeError (e : exn).

Inductive level : Type := Error | Debug.

(** What the module does to the outside, in order. *)
Inductive event : Type :=
  | EvLock (path : string) (granted : bool)
  | EvUnlock (path : string)
  | EvExists (path : string)
  | EvOpenRead (path : string)
  | EvOpenWrite (path : string)
  | EvWrite (path : string) (text : string)
  | EvBusWrite (addr : Z) (byte : Z)
  | EvLog (lvl : level) (msg : message).

(** The outside: text files by path, lock files currently held, the output
    register of each chip on the bus, the paths and the bus condition on which
    the operating system refuses service, and the trace of events. *)
Record World : Type := mkWorld {
  files : gmap string string;
  held : gset string;
  regs : gmap Z Z;
  unreadable : gset string;
  unwritable : gset string;
  bus_down : bool;
  trace : list event
}.

Record Sys : Type := mkSys {
  this : OutputModule;
  env : World
}.

Definition with_output_state (v : slot) (o : OutputModule) : OutputModule :=
  mkOutputModule (output_setup o) (channel o) (output_on_state o) v
    (lock_file o) (state_file o) (sensor o).

Definition with_files (fs : gmap string string) (w : World) : World :=
  mkWorld fs (held w) (regs w) (unreadable w) (unwritable w) (bus_down w) (trace w).

Definition with_held (h : gset string) (w : World) : World :=
  mkWorld (files w) h (regs w) (unreadable w) (unwritable w) (bus_down w) (trace w).

Definition with_regs (r : gmap Z Z) (w : World) : World :=
  mkWorld (files w) (held w) r (unreadable w) (unwritable w) (bus_down w) (trace w).

Definition with_event (ev : event) (w : World) : World :=
  mkWorld (files w) (held w) (regs w) (unreadable w) (unwritable w) (bus_down w)
    (trace w ++ [ev]).

(** ** Statements: state, exceptions and [return] *)

Inductive outcome (A : Type) : Type :=
  | Normal (a : A)
  | Returned
  | Raised (e : exn).
Arguments Normal {A} a.
Arguments Returned {A}.
Arguments Raised {A} e.

Definition M (A : Type) : Type := Sys → outcome A * Sys.

#[global] Instance M_ret : MRet M := λ A a s, (Normal a, s).

#[global] Instance M_bind : MBind M := λ A B k m s,
  match m s with
  | (Normal a, s') => k a s'
  | (Returned, s') => (Returned, s')
  | (Raised e, s') => (Raised e, s')
  end.

Definition raise {A : Type} (e : exn) : M A := λ s, (Raised e, s).

(** A bare [return]. *)
Definition return_ {A : Type} : M A := λ s, (Returned, s).

(** [try: body except Exception as e: handler e]. *)
Definition try_except {A : Type} (body : M A) (handler : exn → M A) : M A := λ s,
  match body s with
  | (Raised e, s') => handler e s'
  | r => r
  end.

(** [try: body finally: final]: [final] runs on every way out of [body], and
    what it raises or returns replaces the outcome of [body]. *)
Definition try_finally {A : Type} (body : M A) (final : M unit) : M A := λ s,
  match body s with
  | (r, s') =>
      match final s' with
      | (Normal _, s'') => (r, s'')
      | (Returned, s'') => (Returned, s'')
      | (Raised e, s'') => (Raised e, s'')
      end
  end.

(** A function body: falling off the end and a bare [return] both give
    [None] to the caller; an exception goes through. *)
Definition def (body : M unit) : M unit := λ s,
  match body s with
  | (Returned, s') => (Normal (), s')
  | r => r
  end.

Definition get_self : M OutputModule := λ s, (Normal (this s), s).

Definition set_output_state (v : slot) : M unit := λ s,
  (Normal (), mkSys (with_output_state v (this s)) (env s)).

Definition emit (ev : event) : M unit := λ s,
  (Normal (), mkSys (this s) (with_event ev (env s))).

Definition get_env : M World := λ s, (Normal (env s), s).

Definition put_env (w : World) : M unit := λ s, (Normal (), mkSys (this s) w).

(** [for x in xs: body x]. *)
Fixpoint for_each {A : Type} (xs : list A) (body : A → M unit) : M unit :=
  match xs with
  | [] => mret ()
  | x :: rest => body x;; for_each rest body
  end.

(** ** Collaborators of the module *)

(** Modelled from the spec: [AbstractOutput.lock_acquire] is inherited from
    [base_output], which is not part of the sources.  The per-device lock is
    a named lock file; acquisition waits at most [timeout] and answers
    whether the lock was obtained.  A lock file in [held] stays held for the
    whole wait, so acquiring it times out. *)
Definition lock_acquire (path : string) (timeout : Z) : M bool := λ s,
  let w := env s in
  if decide (path ∈ held w)
  then (Normal false, mkSys (this s) (with_event (EvLock path false) w))
  else (Normal true,
        mkSys (this s) (with_event (EvLock path true) (with_held ({[path]} ∪ held w) w))).

(** Modelled from the spec: [AbstractOutput.lock_release], the companion of
    [lock_acquire], gives the named lock back. *)
Definition lock_release (path : string) : M unit := λ s,
  let w := env s in
  (Normal (), mkSys (this s) (with_event (EvUnlock path) (with_held (held w ∖ {[path]}) w))).

(** [self.logger.error(...)] and [self.logger.debug(...)]: the message joins
    the trace. *)
Definition logger_error (msg : message) : M unit := emit (EvLog Error msg).
Definition logger_debug (msg : message) : M unit := emit (EvLog Debug msg).

(** [os.path.exists(path)]. *)
Definition path_exists (path : string) : M bool := λ s,
  (Normal (bool_decide (is_Some (files (env s) !! path))),
   mkSys (this s) (with_event (EvExists path) (env s))).

(** [with open(path, 'r') as f]: the text of the file, or [OSError] when the
    file cannot be opened. *)
Definition open_read (path : string) : M string := λ s,
  let s' := mkSys (this s) (with_event (EvOpenRead path) (env s)) in
  if decide (path ∈ unreadable (env s)) then (Raised (OSError (File path)), s')
  else match files (env s) !! path with
       | Some text => (Normal text, s')
       | None => (Raised (OSError (File path)), s')
       end.

(** [open(path, 'w')]: the file is created or truncated, or [OSError] is
    raised and the file stays as it was. *)
Definition open_write (path : string) : M unit := λ s,
  let w := with_event (EvOpenWrite path) (env s) in
  if decide (path ∈ unwritable (env s)) then (Raised (OSError (File path)), mkSys (this s) w)
  else (Normal (), mkSys (this s) (with_files (<[path := ""]> (files w)) w)).

(** [f.write(text)] on a file opened for writing.  In this world a write to
    an open file goes through; a write (or the flush at close) that fails
    after [open] has truncated the file is not part of it, so nothing below
    is stated about the file after such a failure. *)
Definition file_write (path : string) (text : string) : M unit := λ s,
  let w := with_event (EvWrite path text) (env s) in
  (Normal (),
   mkSys (this s)
     (with_files (<[path := default "" (files w !! path) +:+ text]> (files w)) w)).

(** [bus.write_byte(addr, byte)]: the transfer is issued; the register takes
    the byte unless the bus fails, in which case [OSError] is raised. *)
Definition write_byte (addr : Z) (byte : Z) : M unit := λ s,
  let w := with_event (EvBusWrite addr byte) (env s) in
  if bus_down (env s) then (Raised (OSError (Chip addr)), mkSys (this s) w)
  else (Normal (), mkSys (this s) (with_regs (<[addr := byte]> (regs w)) w)).

(** [assert cond]. *)
Definition assert_ (cond : bool) : M unit :=
  if cond then mret () else raise AssertionError.

(** Position addressed by a Python index [k] in a list of length [len]:
    negative indices count from the end. *)
Definition py_index (len : nat) (k : Z) : option nat :=
  if (0 <=? k) && (k <? Z.of_nat len) then Some (Z.to_nat k)
  else if (- Z.of_nat len <=? k) && (k <? 0) then Some (Z.to_nat (k + Z.of_nat len))
  else None.

(** [l[k] = v]; [IndexError] outside the list. *)
Definition list_setitem {A : Type} (l : list A) (k : Z) (v : A) : M (list A) :=
  match py_index (length l) k with
  | Some i => mret (<[i := v]> l)
  | None => raise IndexError
  end.

(** ** [PCF8574.port] setter, lines 237-246 *)

Definition port_setter (self : PCF8574) (value : list slot) : M unit :=
  assert_ (bool_decide (length value = 8%nat));;
  let new_state := port_loop 0 value 0 in
  write_byte (address self) new_state.

(** ** [OutputModule.output_switch], lines 110-172 *)

Definition output_switch (state : string) : M unit :=
  def (
    self ← get_self;
    (if channel self is None
     then logger_error NoChannel;; return_
     else mret ());;
    try_except
      (locked ← lock_acquire (lock_file self) 60;
       if locked : bool then
         try_finally
           (present ← path_exists (state_file self);
            list_states ←
              (if present : bool
               then text ← open_read (state_file self); mret (read_states text)
               else mret (replicate 8 None));
            logger_debug (ReadStates (state_file self) list_states);;
            (if bool_decide (length list_states ≠ 8%nat)
             then logger_error Not8Elements;; return_
             else mret ());;
            (if String.eqb state "on"
             then set_output_state (Some (output_on_state self))
             else if String.eqb state "off"
             then set_output_state (Some (negb (output_on_state self)))
             else logger_error (UnrecognizedState state);; return_);;
            self ← get_self;
            k ← (match channel self with
                 | Some c => mret (c - 1)
                 | None => raise TypeError
                 end);
            list_states ← list_setitem list_states k (output_state self);
            logger_debug (WriteStates (state_file self) list_states);;
            open_write (state_file self);;
            for_each list_states (λ write_state,
              file_write (state_file self)
                (format_slot write_state +:+ String LF EmptyString));;
            port_setter (sensor self) list_states)
           (lock_release (lock_file self))
       else mret ())
      (λ e, logger_error (StateChangeError e))).

(** ** [OutputModule.is_on], lines 174-179 *)

Definition is_setup (self : OutputModule) : bool := output_setup self.

(** The value [is_on] gives back; [None] when the controller is not set up. *)
Definition is_on (self : OutputModule) : slot :=
  if is_setup self then output_state self else None.

(** ** Sample controller and world *)

Definition chip0 : PCF8574 := mkPCF8574 1 32.

Definition controller (ch : option Z) (on_state : bool) : OutputModule :=
  mkOutputModule true ch on_state None
    "/var/lock/pcf8574_1_0x20" "/var/lock/pcf8574_1_0x20.states" chip0.

Definition fresh_world : World := mkWorld ∅ ∅ ∅ ∅ ∅ false [].

(** ** Vocabulary of the statements *)

(** Entry [k] of a state list as the port setter sees it: a missing or
    [None] entry counts as [False]. *)
Definition slot_bit (value : list slot) (k : nat) : bool :=
  from_option truthy false (value !! k).

(** The state list [output_switch] starts from: the tokens of the state file
    when it exists, eight times [None] otherwise (lines 129-140). *)
Definition load_states (w : World) (path : string) : list slot :=
  match files w !! path with
  | Some text => read_states text
  | None => replicate 8 None
  end.

(** The state list the durable record of a controller holds, if there is a
    record. *)
Definition persisted (s : Sys) : option (list slot) :=
  read_states <$> files (env s) !! state_file (this s).

(** The level [output_switch] assigns to [output_state] for a recognised
    request (lines 149-152). *)
Definition physical_level (state : string) (on_state : bool) : bool :=
  if String.eqb state "on" then on_state else negb on_state.

Definition write_event (path : string) (ws : slot) : event :=
  EvWrite path (format_slot ws +:+ String LF EmptyString).

(** Events of the loading step: the existence test, and the read when the
    file is there. *)
Definition read_events (w : World) (path : string) : list event :=
  if bool_decide (is_Some (files w !! path)) then [EvExists path; EvOpenRead path]
  else [EvExists path].

(** Events that touch the register or change the state file. *)
Definition is_output (ev : event) : bool :=
  match ev with
  | EvOpenWrite _ | EvWrite _ _ | EvBusWrite _ _ => true
  | _ => false
  end.

(** Events that access the register or the state file in any way. *)
Definition is_io (ev : event) : bool :=
  match ev with
  | EvExists _ | EvOpenRead _ | EvOpenWrite _ | EvWrite _ _ | EvBusWrite _ _ => true
  | _ => false
  end.

(** The state file can be loaded: when it exists, opening it for reading
    succeeds. *)
Definition can_load (w : World) (path : string) : Prop :=
  is_Some (files w !! path) → path ∉ unreadable w.

(** The events added to the trace between [s] and [s']. *)
Definition events_since (s s' : Sys) : list event :=
  drop (length (trace (env s))) (trace (env s')).

(** The byte transfers among some events, in order, as (address, byte). *)
Fixpoint bus_writes (evs : list event) : list (Z * Z) :=
  match evs with
  | [] => []
  | EvBusWrite addr byte :: rest => (addr, byte) :: bus_writes rest
  | _ :: rest => bus_writes rest
  end.

(** A world left by earlier switching: the durable record loads to [st], a
    list of eight entries, and the register of the chip holds the byte packed
    from it. *)
Definition committed (s : Sys) (st : list slot) : Prop :=
  load_states (env s) (state_file (this s)) = st ∧
  length st = 8%nat ∧
  regs (env s) !! address (sensor (this s)) = Some (port_byte st).

(** The ways through [output_switch]: which test or collaborator decides
    where the call ends. *)
Inductive path_taken (state : string) (s : Sys) : Prop :=
  | NoChannelPath :
      channel (this s) = None → path_taken state s
  | LockTimeoutPath c :
      channel (this s) = Some c → lock_file (this s) ∈ held (env s) → path_taken state s
  | UnreadablePath c :
      channel (this s) = Some c → lock_file (this s) ∉ held (env s) →
      is_Some (files (env s) !! state_file (this s)) →
      state_file (this s) ∈ unreadable (env s) → path_taken state s
  | Not8Path c text :
      channel (this s) = Some c → lock_file (this s) ∉ held (env s) →
      can_load (env s) (state_file (this s)) →
      files (env s) !! state_file (this s) = Some text →
      length (read_states text) ≠ 8%nat → path_taken state s
  | UnrecognizedPath c :
      channel (this s) = Some c → lock_file (this s) ∉ held (env s) →
      can_load (env s) (state_file (this s)) →
      length (load_states (env s) (state_file (this s))) = 8%nat →
      state ≠ "on" → state ≠ "off" → path_taken state s
  | IndexErrorPath c :
      channel (this s) = Some c → lock_file (this s) ∉ held (env s) →
      can_load (env s) (state_file (this s)) →
      length (load_states (env s) (state_file (this s))) = 8%nat →
      state = "on" ∨ state = "off" →
      py_index 8 (c - 1) = None → path_taken state s
  | PersistFailsPath c i :
      channel (this s) = Some c → lock_file (this s) ∉ held (env s) →
      can_load (env s) (state_file (this s)) →
      length (load_states (env s) (state_file (this s))) = 8%nat →
      state = "on" ∨ state = "off" →
      py_index 8 (c - 1) = Some i →
      state_file (this s) ∈ unwritable (env s) → path_taken state s
  | CommitPath c i :
      channel (this s) = Some c → lock_file (this s) ∉ held (env s) →
      can_load (env s) (state_file (this s)) →
      length (load_states (env s) (state_file (this s))) = 8%nat →
      state = "on" ∨ state = "off" →
      py_index 8 (c - 1) = Some i →
      state_file (this s) ∉ unwritable (env s) → path_taken state s.

(** A state file with seven tokens. *)
Definition seven_tokens : string :=
  write_states [None; Some true; Some false; None; None; None; None].

Definition world_with_record (text : string) : World :=
  mkWorld {[ "/var/lock/pcf8574_1_0x20.states" := text ]} ∅ ∅ ∅ ∅ false [].

Definition world_locked : World :=
  mkWorld ∅ {[ "/var/lock/pcf8574_1_0x20" ]} ∅ ∅ ∅ false [].

(** A state list with unknown, high and low entries, and a world in which it
    has been committed. *)
Definition sample_states : list slot :=
  [Some true; None; Some false; Some true; None; None; Some false; None].

Definition world_committed : World :=
  mkWorld {[ "/var/lock/pcf8574_1_0x20.states" := write_states sample_states ]} ∅
    {[ 32 := port_byte sample_states ]} ∅ ∅ false [].

Definition world_bus_down : World := mkWorld ∅ ∅ ∅ ∅ ∅ true [].

(** ** The rest of the register driver *)

(** [bus.read_byte(addr)]: the byte the register of the chip holds.  The
    transfer fails with [OSError] when the bus fails or when the world holds
    no register for the chip.  A read changes nothing in the world, and the
    trace keeps no record of it. *)
Definition read_byte (addr : Z) : M Z := λ s,
  if bus_down (env s) then (Raised (OSError (Chip addr)), s)
  else match regs (env s) !! addr with
       | Some byte => (Normal byte, s)
       | None => (Raised (OSError (Chip addr)), s)
       end.

(** [PCF8574.set_output], lines 248-254.  [output_number in range(8)] holds
    for the integers 0..7 only; the conditional expression parses as
    [(current_state | bit) if value else (current_state & (~bit & 0xff))]. *)
Definition set_output (self : PCF8574) (output_number : Z) (value : slot) : M unit :=
  assert_ (bool_decide (0 ≤ output_number < 8));;
  current_state ← read_byte (address self);
  let bit := Z.shiftl 1 (7 - output_number) in
  let new_state :=
    if truthy value then Z.lor current_state bit
    else Z.land current_state (Z.land (Z.lnot bit) 255) in
  write_byte (address self) new_state.

(** [IOPort]: a [list] subclass that also keeps the chip handle.  [items] is
    what the underlying list holds, the positional arguments of
    [__init__]. *)
Record IOPort : Type := mkIOPort {
  items : list slot;
  pcf8574 : PCF8574
}.

(** The [port] property, lines 232-235: [IOPort(self)], a port object over an
    empty underlying list. *)
Definition port_getter (self : PCF8574) : IOPort := mkIOPort [] self.

(** [IOPort.__setitem__], lines 197-199. *)
Definition IOPort_setitem (self : IOPort) (key : Z) (value : slot) : M unit :=
  set_output (pcf8574 self) key value.

(** [bool(state & 1 << 7 - i)], the test of line 206; it parses as
    [state & (1 << (7 - i))]. *)
Definition pin_bit (state : Z) (i : nat) : bool :=
  negb (Z.land state (Z.shiftl 1 (7 - Z.of_nat i)) =? 0).

(** The list [ret] built by the loop of lines 204-206. *)
Definition port_bits (state : Z) : list bool := pin_bit state <$> seq 0 8.

(** [repr] of a list of booleans. *)
Definition repr_bool (b : bool) : string := if b then "True" else "False".

Definition repr_list (l : list bool) : string :=
  "[" +:+ String.concat ", " (repr_bool <$> l) +:+ "]".

(** [IOPort.__repr__], lines 201-207. *)
Definition IOPort_repr (self : IOPort) : M string :=
  state ← read_byte (address (pcf8574 self));
  mret (repr_list (port_bits state)).

(** [IOPort.__len__], lines 209-210. *)
Definition IOPort_len (self : IOPort) : Z := 8.

(** [self[k]] on an [IOPort]: the class defines no [__getitem__], so this is
    the indexing of the underlying list. *)
Definition list_getitem {A : Type} (l : list A) (k : Z) : option A :=
  i ← py_index (length l) k; l !! i.

(** A generator that yields [self[k]] for the indices [ks] in turn: the values
    it yields, and the exception that ends it, if any. *)
Fixpoint yield_items (l : list slot) (ks : list Z) : list slot * option exn :=
  match ks with
  | [] => ([], None)
  | k :: rest =>
      match list_getitem l k with
      | Some x => let (ys, e) := yield_items l rest in (x :: ys, e)
      | None => ([], Some IndexError)
      end
  end.

(** [IOPort.__iter__], lines 212-214. *)
Definition IOPort_iter (self : IOPort) : list slot * option exn :=
  yield_items (items self) ((λ i : nat, Z.of_nat i) <$> seq 0 8).

(** [IOPort.__reversed__], lines 216-218. *)
Definition IOPort_reversed (self : IOPort) : list slot * option exn :=
  yield_items (items self) ((λ i : nat, 7 - Z.of_nat i) <$> seq 0 8).

(** ** Shutdown of the controller *)

(** The fields of [OutputModule] that the life cycle uses besides those of
    the switch: the policies read from the configuration in [setup_output]
    (a string, or [None]) and the [running] flag. *)
Record Lifecycle : Type := mkLifecycle {
  state_startup : option string;
  state_shutdown : option string;
  running : bool
}.

(** [attr == literal] for an attribute that is a string or [None]. *)
Definition is_literal (attr : option string) (literal : string) : bool :=
  match attr with
  | Some v => String.eqb v literal
  | None => false
  end.

(** [OutputModule.stop_output], lines 181-187; the value is the life-cycle
    record after the call. *)
Definition stop_output (life : Lifecycle) : M Lifecycle :=
  (if is_literal (state_shutdown life) "1" then output_switch "on"
   else if is_literal (state_shutdown life) "0" then output_switch "off"
   else mret ());;
  mret (mkLifecycle (state_startup life) (state_shutdown life) false).

(** The same controller bound to another channel number. *)
Definition with_channel (c : option Z) (o : OutputModule) : OutputModule :=
  mkOutputModule (output_setup o) c (output_on_state o) (output_state o)
    (lock_file o) (state_file o) (sensor o).

(** Two controllers drive the same chip: they share lock file, state file
    and chip handle. *)
Definition same_chip (o1 o2 : OutputModule) : Prop :=
  lock_file o1 = lock_file o2 ∧ state_file o1 = state_file o2 ∧ sensor o1 = sensor o2.

(** A world whose chip 32 holds [byte]. *)
Definition world_with_register (byte : Z) : World :=
  mkWorld ∅ ∅ {[ 32 := byte ]} ∅ ∅ false [].

(** Where a call stands with respect to its lock: it has not asked for it,
    it holds it, or it is through with it (refused, or released). *)
Inductive lock_phase : Type := NotTried | Holding | Finished.

(** Reading the events of a call from left to right: the lock is asked for at
    most once, and only the lock file [lock]; only that lock is released, once,
    and only while it is held; the state file and the bus are touched only
    while it is held; and the call does not end holding it. *)
Fixpoint lock_discipline (lock : string) (phase : lock_phase) (evs : list event) : bool :=
  match evs with
  | [] => match phase with Holding => false | _ => true end
  | EvLock path granted :: rest =>
      match phase with
      | NotTried =>
          String.eqb path lock &&
          lock_discipline lock (if granted then Holding else Finished) rest
      | _ => false
      end
  | EvUnlock path :: rest =>
      match phase with
      | Holding => String.eqb path lock && lock_discipline lock Finished rest
      | _ => false
      end
  | ev :: rest =>
      (negb (is_io ev) || match phase with Holding => true | _ => false end) &&
      lock_discipline lock phase rest
  end.

(** An exception caught and logged by the handler of lines 171-172. *)
Definition is_state_change_error (ev : event) : bool :=
  match ev with
  | EvLog Error (StateChangeError _) => true
  | _ => false
  end.

(** Whether some of the events report a state change error. *)
Definition reports_failure (evs : list event) : bool :=
  existsb is_state_change_error evs.

(** Events other than taking and releasing the lock. *)
Definition is_plain (ev : event) : bool :=
  match ev with
  | EvLock _ _ | EvUnlock _ => false
  | _ => true
  end.

(** The committed sample world with a dead bus. *)
Definition world_committed_bus_down : World :=
  mkWorld {[ "/var/lock/pcf8574_1_0x20.states" := write_states sample_states ]} ∅
    {[ 32 := port_byte sample_states ]} ∅ ∅ true [].

(** What a call leaves of the world and of the controller, path by path:
    either nothing but the trace changed, or only [output_state] did, or the
    list was persisted and the byte sent. *)
Inductive switch_effect (state : string) (s s' : Sys) : Prop :=
  | EffectNone :
      this s' = this s → files (env s') = files (env s) → regs (env s') = regs (env s) →
      bus_writes (events_since s s') = [] →
      switch_effect state s s'
  | EffectLevelOnly c :
      channel (this s) = Some c →
      state = "on" ∨ state = "off" →
      length (load_states (env s) (state_file (this s))) = 8%nat →
      this s' = with_output_state
                  (Some (physical_level state (output_on_state (this s)))) (this s) →
      files (env s') = files (env s) → regs (env s') = regs (env s) →
      bus_writes (events_since s s') = [] →
      switch_effect state s s'
  | EffectCommit c i :
      channel (this s) = Some c → py_index 8 (c - 1) = Some i →
      state = "on" ∨ state = "off" →
      lock_file (this s) ∉ held (env s) →
      state_file (this s) ∉ unwritable (env s) →
      length (load_states (env s) (state_file (this s))) = 8%nat →
      let v := physical_level state (output_on_state (this s)) in
      let list_states := <[i := Some v]> (load_states (env s) (state_file (this s))) in
      this s' = with_output_state (Some v) (this s) →
      files (env s') = <[state_file (this s) := write_states list_states]> (files (env s)) →
      regs (env s') =
        (if bus_down (env s) then regs (env s)
         else <[address (sensor (this s)) := port_byte list_states]> (regs (env s))) →
      bus_writes (events_since s s') = [(address (sensor (this s)), port_byte list_states)] →
      switch_effect state s s'.

(** * Properties *)

Example read_states_sample :
  read_states "None
True
False
" = [None; Some true; Some false].
Proof. reflexivity. Qed.

(** A line that is none of the three tokens is skipped, and so is a last
    line without its newline, whose final character [line[:-1]] removes. *)
Example read_states_skips_lines :
  read_states "True
maybe

False
True" = [Some true; Some false].
Proof. reflexivity. Qed.

(** ** Strings and the durable-state format *)

Lemma append_empty_r (s : string) : s +:+ "" = s.
Proof.
  induction s as [|c s IH]; [done|].
  change (String c (s +:+ "") = String c s). by rewrite IH.
Qed.

Lemma append_assoc (a b c : string) : (a +:+ b) +:+ c = a +:+ (b +:+ c).
Proof.
  induction a as [|x a IH]; [done|].
  change (String x ((a +:+ b) +:+ c) = String x (a +:+ (b +:+ c))). by rewrite IH.
Qed.

Lemma write_states_cons ws l :
  write_states (ws :: l) =
  match ws with
  | None => String "N" (String "o" (String "n" (String "e" (String LF (write_states l)))))
  | Some true => String "T" (String "r" (String "u" (String "e" (String LF (write_states l)))))
  | Some false =>
      String "F" (String "a" (String "l" (String "s" (String "e" (String LF (write_states l))))))
  end.
Proof. by destruct ws as [[]|]. Qed.

Lemma universal_newlines_write_states l :
  universal_newlines (write_states l) = write_states l.
Proof.
  induction l as [|[[]|] l IH]; [done|..]; rewrite write_states_cons; simpl; by rewrite IH.
Qed.

Lemma iter_lines_write_states l :
  iter_lines "" (write_states l) = (λ ws, format_slot ws +:+ String LF EmptyString) <$> l.
Proof.
  induction l as [|[[]|] l IH]; [done|..]; rewrite write_states_cons; simpl; by rewrite IH.
Qed.

Lemma fold_read_line l acc :
  fold_left read_line ((λ ws, format_slot ws +:+ String LF EmptyString) <$> l) acc =
  acc ++ l.
Proof.
  revert acc. induction l as [|ws l IH]; intros acc; simpl.
  - by rewrite app_nil_r.
  - rewrite IH.
    assert (read_line acc (format_slot ws +:+ String LF "") = acc ++ [ws]) as ->
      by (by destruct ws as [[]|]).
    by rewrite <- app_assoc.
Qed.

(** Reading back what the write loop wrote, for a list of any length. *)
Lemma read_write_states l : read_states (write_states l) = l.
Proof.
  unfold read_states, file_lines.
  by rewrite universal_newlines_write_states, iter_lines_write_states, fold_read_line.
Qed.

(** C7. Writing an 8-entry state list with the write loop (one token per
    line, each of [None], [True], [False]) and reading the text back with the
    read loop gives the same list. *)
Theorem state_format_round_trip (list_states : list slot) :
  length list_states = 8%nat →
  read_states (write_states list_states) = list_states.
Proof. intros _. apply read_write_states. Qed.

Lemma state_format_round_trip_witness :
  read_states (write_states [None; Some true; Some false; None; Some true; None; None; Some false])
  = [None; Some true; Some false; None; Some true; None; None; Some false].
Proof. apply state_format_round_trip. reflexivity. Defined.

(** ** Bits of the packed byte *)

Lemma testbit_one_shifted (k n : Z) :
  0 ≤ k → 0 ≤ n → Z.testbit (Z.shiftl 1 k) n = bool_decide (n = k).
Proof.
  intros Hk Hn. rewrite Z.shiftl_spec by done.
  case_bool_decide as Heq.
  - subst. by rewrite Z.sub_diag.
  - destruct (decide (n < k)).
    + rewrite Z.testbit_neg_r by lia. done.
    + change 1 with (Z.ones 1). rewrite Z.ones_spec_high by lia. done.
Qed.

(** Bit [n] of the byte after running the loop from index [i]. *)
Lemma port_loop_testbit value i acc n :
  0 ≤ i → i + Z.of_nat (length value) ≤ 8 → 0 ≤ n →
  Z.testbit (port_loop i value acc) n =
  Z.testbit acc n || (bool_decide (i ≤ 7 - n) && slot_bit value (Z.to_nat (7 - n - i))).
Proof.
  revert i acc. induction value as [|val rest IH]; intros i acc Hi Hlen Hn.
  - simpl. unfold slot_bit. rewrite lookup_nil. simpl. by rewrite andb_false_r, orb_false_r.
  - simpl in Hlen. simpl port_loop. rewrite IH by lia.
    assert (Z.testbit (if truthy val then Z.lor acc (Z.shiftl 1 (7 - i)) else acc) n =
            Z.testbit acc n || (truthy val && bool_decide (n = 7 - i))) as ->.
    { destruct (truthy val); simpl.
      - rewrite Z.lor_spec, testbit_one_shifted by lia. done.
      - by rewrite orb_false_r. }
    unfold slot_bit.
    destruct (decide (n = 7 - i)) as [->|Hne].
    + replace (7 - (7 - i) - i) with 0 by lia. simpl.
      rewrite (bool_decide_true (7 - i = 7 - i)) by done.
      rewrite (bool_decide_false (i + 1 ≤ _)) by lia.
      rewrite (bool_decide_true (i ≤ _)) by lia. simpl.
      by rewrite andb_true_r, orb_false_r.
    + rewrite (bool_decide_false (n = 7 - i)) by done. rewrite andb_false_r, orb_false_r.
      f_equal.
      destruct (decide (i + 1 ≤ 7 - n)).
      * rewrite !bool_decide_true by lia. simpl.
        replace (Z.to_nat (7 - n - i)) with (S (Z.to_nat (7 - n - (i + 1)))) by lia.
        done.
      * rewrite (bool_decide_false (i + 1 ≤ _)) by lia. simpl.
        case_bool_decide; [lia | done].
Qed.

Lemma port_byte_testbit value (j : nat) :
  length value = 8%nat → (j < 8)%nat →
  Z.testbit (port_byte value) (7 - Z.of_nat j) = slot_bit value j.
Proof.
  intros Hlen Hj. unfold port_byte.
  rewrite port_loop_testbit by lia.
  rewrite Z.bits_0. simpl. rewrite bool_decide_true by lia. simpl.
  f_equal. lia.
Qed.

Lemma port_byte_high value n :
  length value = 8%nat → 8 ≤ n → Z.testbit (port_byte value) n = false.
Proof.
  intros Hlen Hn. unfold port_byte. rewrite port_loop_testbit by lia.
  rewrite Z.bits_0. simpl. rewrite bool_decide_false by lia. done.
Qed.

Lemma slot_bit_insert_ne value (i j : nat) v :
  i ≠ j → slot_bit (<[i := v]> value) j = slot_bit value j.
Proof. intros Hne. unfold slot_bit. by rewrite list_lookup_insert_ne. Qed.

(** ** Running [output_switch] along each of its paths *)

Ltac run :=
  cbv beta iota zeta delta
    [output_switch def try_except try_finally mbind M_bind mret M_ret
     get_self set_output_state emit get_env put_env logger_error logger_debug
     lock_acquire lock_release path_exists open_read open_write file_write
     write_byte assert_ list_setitem port_setter raise return_
     this env files held regs unreadable unwritable bus_down trace
     with_event with_files with_held with_regs with_output_state
     output_setup channel output_on_state output_state lock_file state_file sensor
     address fst snd].

(** The write loop appends the tokens of the list to the open file. *)
Lemma for_each_file_write path (body : slot → M unit) l o w old :
  (∀ ws s, body ws s = file_write path (format_slot ws +:+ String LF EmptyString) s) →
  files w !! path = Some old →
  for_each l body (mkSys o w) =
  (Normal (),
   mkSys o (mkWorld (<[path := old +:+ write_states l]> (files w)) (held w) (regs w)
              (unreadable w) (unwritable w) (bus_down w)
              (trace w ++ (write_event path <$> l)))).
Proof.
  intros Hbody. revert w old. induction l as [|ws l IH]; intros w old Hold.
  - destruct w; simpl in *. rewrite append_empty_r, app_nil_r, insert_id; done.
  - change (for_each (ws :: l) body) with (body ws;; for_each l body).
    unfold mbind, M_bind. rewrite Hbody. unfold file_write. cbv beta iota zeta.
    erewrite IH.
    2:{ simpl. apply lookup_insert_eq. }
    destruct w; simpl in *. rewrite Hold. simpl.
    rewrite insert_insert_eq, <- app_assoc, append_assoc. done.
Qed.

Lemma py_index_in_range (len i : nat) :
  (i < len)%nat → py_index len (Z.of_nat i + 1 - 1) = Some i.
Proof.
  intros Hi. unfold py_index.
  replace (Z.of_nat i + 1 - 1) with (Z.of_nat i) by lia.
  destruct (0 <=? Z.of_nat i) eqn:H1; [|lia].
  destruct (Z.of_nat i <? Z.of_nat len) eqn:H2; [|lia].
  simpl. f_equal. lia.
Qed.

Ltac load_case fs sf Hfile :=
  destruct (fs !! sf) as [?text|] eqn:Hfile;
  [ rewrite bool_decide_true by eauto; run;
    rewrite decide_False by (by eauto); run;
    rewrite ?Hfile; run
  | rewrite bool_decide_false by (by intros [? ?]); run ].

(** The path that persists the list and sends the byte; the transfer itself
    may still fail. *)
Lemma output_switch_commit s state c i :
  channel (this s) = Some c →
  lock_file (this s) ∉ held (env s) →
  can_load (env s) (state_file (this s)) →
  state_file (this s) ∉ unwritable (env s) →
  length (load_states (env s) (state_file (this s))) = 8%nat →
  state = "on" ∨ state = "off" →
  py_index 8 (c - 1) = Some i →
  let self := this s in
  let w := env s in
  let v := physical_level state (output_on_state self) in
  let list_states := <[i := Some v]> (load_states w (state_file self)) in
  let byte := port_byte list_states in
  output_switch state s =
  (Normal (),
   mkSys (with_output_state (Some v) self)
     (mkWorld (<[state_file self := write_states list_states]> (files w))
        (({[lock_file self]} ∪ held w) ∖ {[lock_file self]})
        (if bus_down w then regs w else <[address (sensor self) := byte]> (regs w))
        (unreadable w) (unwritable w) (bus_down w)
        (trace w ++ [EvLock (lock_file self) true] ++ read_events w (state_file self) ++
         [EvLog Debug (ReadStates (state_file self) (load_states w (state_file self)));
          EvLog Debug (WriteStates (state_file self) list_states);
          EvOpenWrite (state_file self)] ++
         (write_event (state_file self) <$> list_states) ++
         [EvBusWrite (address (sensor self)) byte; EvUnlock (lock_file self)] ++
         (if bus_down w
          then [EvLog Error (StateChangeError (OSError (Chip (address (sensor self)))))]
          else [])))).
Proof.
  intros Hc Hl Hr Hw Hlen Hstate Hi.
  destruct s as [[setup ch on st lf sf chip] [fs hd rg ur uw bd tr]]; simpl in *.
  subst ch. unfold can_load, load_states, read_events, physical_level in *; simpl in *.
  run. rewrite decide_False by done. run.
  load_case fs sf Hfile.
  all: rewrite bool_decide_false by (intros Hne; by apply Hne); run.
  all: destruct Hstate as [-> | ->];
    change (String.eqb "on" "on") with true;
    change (String.eqb "off" "on") with false;
    change (String.eqb "off" "off") with true; run.
  all: change (length (replicate 8 None)) with 8%nat.
  all: rewrite ?Hlen, Hi; run.
  all: rewrite decide_False by done; run.
  all: erewrite for_each_file_write; [|intros; reflexivity|simpl; apply lookup_insert_eq].
  all: run; rewrite bool_decide_true by (by rewrite length_insert); run.
  all: destruct bd; run.
  all: do 3 f_equal; rewrite ?insert_insert_eq, <- ?app_assoc; simpl; done.
Qed.

(** The state file cannot be opened for writing. *)
Lemma output_switch_persist_fails s state c i :
  channel (this s) = Some c →
  lock_file (this s) ∉ held (env s) →
  can_load (env s) (state_file (this s)) →
  state_file (this s) ∈ unwritable (env s) →
  length (load_states (env s) (state_file (this s))) = 8%nat →
  state = "on" ∨ state = "off" →
  py_index 8 (c - 1) = Some i →
  let self := this s in
  let w := env s in
  let v := physical_level state (output_on_state self) in
  let list_states := <[i := Some v]> (load_states w (state_file self)) in
  output_switch state s =
  (Normal (),
   mkSys (with_output_state (Some v) self)
     (mkWorld (files w) (({[lock_file self]} ∪ held w) ∖ {[lock_file self]}) (regs w)
        (unreadable w) (unwritable w) (bus_down w)
        (trace w ++ [EvLock (lock_file self) true] ++ read_events w (state_file self) ++
         [EvLog Debug (ReadStates (state_file self) (load_states w (state_file self)));
          EvLog Debug (WriteStates (state_file self) list_states);
          EvOpenWrite (state_file self);
          EvUnlock (lock_file self);
          EvLog Error (StateChangeError (OSError (File (state_file self))))]))).
Proof.
  intros Hc Hl Hr Hw Hlen Hstate Hi.
  destruct s as [[setup ch on st lf sf chip] [fs hd rg ur uw bd tr]]; simpl in *.
  subst ch. unfold can_load, load_states, read_events, physical_level in *; simpl in *.
  run. rewrite decide_False by done. run.
  load_case fs sf Hfile.
  all: rewrite bool_decide_false by (intros Hne; by apply Hne); run.
  all: destruct Hstate as [-> | ->];
    change (String.eqb "on" "on") with true;
    change (String.eqb "off" "on") with false;
    change (String.eqb "off" "off") with true; run.
  all: change (length (replicate 8 None)) with 8%nat.
  all: rewrite ?Hlen, Hi; run.
  all: rewrite decide_True by done; run.
  all: do 3 f_equal; rewrite <- ?app_assoc; simpl; done.
Qed.

(** The lock is not obtained. *)
Lemma output_switch_lock_timeout s state c :
  channel (this s) = Some c →
  lock_file (this s) ∈ held (env s) →
  output_switch state s =
  (Normal (), mkSys (this s) (with_event (EvLock (lock_file (this s)) false) (env s))).
Proof.
  intros Hc Hl.
  destruct s as [[setup ch on st lf sf chip] [fs hd rg ur uw bd tr]]; simpl in *.
  subst ch. run. rewrite decide_True by done. run. done.
Qed.

(** The state file does not hold 8 tokens. *)
Lemma output_switch_not_8 s state c text :
  channel (this s) = Some c →
  lock_file (this s) ∉ held (env s) →
  can_load (env s) (state_file (this s)) →
  files (env s) !! state_file (this s) = Some text →
  length (read_states text) ≠ 8%nat →
  let self := this s in
  let w := env s in
  output_switch state s =
  (Normal (),
   mkSys self
     (mkWorld (files w) (({[lock_file self]} ∪ held w) ∖ {[lock_file self]}) (regs w)
        (unreadable w) (unwritable w) (bus_down w)
        (trace w ++
         [EvLock (lock_file self) true; EvExists (state_file self);
          EvOpenRead (state_file self);
          EvLog Debug (ReadStates (state_file self) (read_states text));
          EvLog Error Not8Elements;
          EvUnlock (lock_file self)]))).
Proof.
  intros Hc Hl Hr Hfile Hlen.
  destruct s as [[setup ch on st lf sf chip] [fs hd rg ur uw bd tr]]; simpl in *.
  subst ch. unfold can_load in *; simpl in *.
  run. rewrite decide_False by done. run.
  rewrite Hfile. rewrite bool_decide_true by eauto. run.
  rewrite decide_False by (by eauto). run. rewrite Hfile. run.
  rewrite bool_decide_true by done. run.
  do 3 f_equal; rewrite <- ?app_assoc; simpl; done.
Qed.

(** No channel is configured. *)
Lemma output_switch_no_channel s state :
  channel (this s) = None →
  output_switch state s =
  (Normal (), mkSys (this s) (with_event (EvLog Error NoChannel) (env s))).
Proof.
  intros Hc.
  destruct s as [[setup ch on st lf sf chip] [fs hd rg ur uw bd tr]]; simpl in *.
  subst ch. run. done.
Qed.

(** The state file exists but cannot be read. *)
Lemma output_switch_unreadable s state c :
  channel (this s) = Some c →
  lock_file (this s) ∉ held (env s) →
  is_Some (files (env s) !! state_file (this s)) →
  state_file (this s) ∈ unreadable (env s) →
  let self := this s in
  let w := env s in
  output_switch state s =
  (Normal (),
   mkSys self
     (mkWorld (files w) (({[lock_file self]} ∪ held w) ∖ {[lock_file self]}) (regs w)
        (unreadable w) (unwritable w) (bus_down w)
        (trace w ++
         [EvLock (lock_file self) true; EvExists (state_file self);
          EvOpenRead (state_file self);
          EvUnlock (lock_file self);
          EvLog Error (StateChangeError (OSError (File (state_file self))))]))).
Proof.
  intros Hc Hl Hfile Hr.
  destruct s as [[setup ch on st lf sf chip] [fs hd rg ur uw bd tr]]; simpl in *.
  subst ch. run. rewrite decide_False by done. run.
  rewrite bool_decide_true by done. run.
  rewrite decide_True by done. run.
  do 3 f_equal; rewrite <- ?app_assoc; simpl; done.
Qed.

(** The request is neither on nor off. *)
Lemma output_switch_unrecognized s state c :
  channel (this s) = Some c →
  lock_file (this s) ∉ held (env s) →
  can_load (env s) (state_file (this s)) →
  length (load_states (env s) (state_file (this s))) = 8%nat →
  state ≠ "on" → state ≠ "off" →
  let self := this s in
  let w := env s in
  output_switch state s =
  (Normal (),
   mkSys self
     (mkWorld (files w) (({[lock_file self]} ∪ held w) ∖ {[lock_file self]}) (regs w)
        (unreadable w) (unwritable w) (bus_down w)
        (trace w ++ [EvLock (lock_file self) true] ++ read_events w (state_file self) ++
         [EvLog Debug (ReadStates (state_file self) (load_states w (state_file self)));
          EvLog Error (UnrecognizedState state);
          EvUnlock (lock_file self)]))).
Proof.
  intros Hc Hl Hr Hlen Hon Hoff.
  destruct s as [[setup ch on st lf sf chip] [fs hd rg ur uw bd tr]]; simpl in *.
  subst ch. unfold can_load, load_states, read_events in *; simpl in *.
  apply String.eqb_neq in Hon, Hoff.
  run. rewrite decide_False by done. run.
  load_case fs sf Hfile.
  all: rewrite bool_decide_false by (intros Hne; by apply Hne); run.
  all: rewrite Hon, Hoff; run.
  all: do 3 f_equal; rewrite <- ?app_assoc; simpl; done.
Qed.

(** The channel number addresses no slot of the list. *)
Lemma output_switch_index_error s state c :
  channel (this s) = Some c →
  lock_file (this s) ∉ held (env s) →
  can_load (env s) (state_file (this s)) →
  length (load_states (env s) (state_file (this s))) = 8%nat →
  state = "on" ∨ state = "off" →
  py_index 8 (c - 1) = None →
  let self := this s in
  let w := env s in
  let v := physical_level state (output_on_state self) in
  output_switch state s =
  (Normal (),
   mkSys (with_output_state (Some v) self)
     (mkWorld (files w) (({[lock_file self]} ∪ held w) ∖ {[lock_file self]}) (regs w)
        (unreadable w) (unwritable w) (bus_down w)
        (trace w ++ [EvLock (lock_file self) true] ++ read_events w (state_file self) ++
         [EvLog Debug (ReadStates (state_file self) (load_states w (state_file self)));
          EvUnlock (lock_file self);
          EvLog Error (StateChangeError IndexError)]))).
Proof.
  intros Hc Hl Hr Hlen Hstate Hi.
  destruct s as [[setup ch on st lf sf chip] [fs hd rg ur uw bd tr]]; simpl in *.
  subst ch. unfold can_load, load_states, read_events, physical_level in *; simpl in *.
  run. rewrite decide_False by done. run.
  load_case fs sf Hfile.
  all: rewrite bool_decide_false by (intros Hne; by apply Hne); run.
  all: destruct Hstate as [-> | ->];
    change (String.eqb "on" "on") with true;
    change (String.eqb "off" "on") with false;
    change (String.eqb "off" "off") with true; run.
  all: change (length (replicate 8 None)) with 8%nat.
  all: rewrite ?Hlen, Hi; run.
  all: do 3 f_equal; rewrite <- ?app_assoc; simpl; done.
Qed.

(** ** Every call takes one of the paths *)

Lemma load_states_length_absent w path :
  files w !! path = None → length (load_states w path) = 8%nat.
Proof. intros H. unfold load_states. by rewrite H. Qed.

(** Every call takes one of the paths. *)
Lemma output_switch_paths state s : path_taken state s.
Proof.
  destruct (channel (this s)) as [c|] eqn:Hc; [|by apply NoChannelPath].
  destruct (decide (lock_file (this s) ∈ held (env s))) as [Hl|Hl];
    [by eapply LockTimeoutPath|].
  destruct (decide (can_load (env s) (state_file (this s)))) as [Hr|Hr]; last first.
  { unfold can_load in Hr.
    destruct (files (env s) !! state_file (this s)) as [text|] eqn:Hfile.
    - destruct (decide (state_file (this s) ∈ unreadable (env s))) as [Hu|Hu].
      + eapply UnreadablePath; eauto.
      + exfalso. apply Hr. intros _. done.
    - exfalso. apply Hr. by intros [? ?]. }
  destruct (decide (length (load_states (env s) (state_file (this s))) = 8%nat))
    as [Hlen|Hlen]; last first.
  { destruct (files (env s) !! state_file (this s)) as [text|] eqn:Hfile.
    - eapply Not8Path; eauto. unfold load_states in Hlen. by rewrite Hfile in Hlen.
    - exfalso. apply Hlen. by apply load_states_length_absent. }
  destruct (decide (state = "on")) as [Hon|Hon];
    [|destruct (decide (state = "off")) as [Hoff|Hoff]; [|by eapply UnrecognizedPath]].
  all: (destruct (py_index 8 (c - 1)) as [i|] eqn:Hi; [|eapply IndexErrorPath; eauto]).
  all: (destruct (decide (state_file (this s) ∈ unwritable (env s)));
        [eapply PersistFailsPath; eauto | eapply CommitPath; eauto]).
Qed.

(** Whatever happens inside, [output_switch] hands [None] to its caller: no
    exception leaves it. *)
Lemma output_switch_returns_none state s : (output_switch state s).1 = Normal ().
Proof.
  destruct (output_switch_paths state s).
  - by rewrite output_switch_no_channel.
  - by erewrite output_switch_lock_timeout.
  - by erewrite output_switch_unreadable.
  - by erewrite output_switch_not_8.
  - by erewrite output_switch_unrecognized.
  - by erewrite output_switch_index_error.
  - by erewrite output_switch_persist_fails.
  - by erewrite output_switch_commit.
Qed.

Lemma events_since_app s s' evs :
  trace (env s') = trace (env s) ++ evs → events_since s s' = evs.
Proof. intros H. unfold events_since. rewrite H. apply drop_app_length. Qed.

(** A call only adds events to the trace. *)
Lemma output_switch_extends_trace state s :
  trace (env (output_switch state s).2) =
  trace (env s) ++ events_since s (output_switch state s).2.
Proof.
  assert (∃ evs, trace (env (output_switch state s).2) = trace (env s) ++ evs) as [evs Hevs].
  { destruct (output_switch_paths state s).
    - rewrite output_switch_no_channel by done. simpl. eauto.
    - erewrite output_switch_lock_timeout by done. simpl. eauto.
    - erewrite output_switch_unreadable by done. simpl. eauto.
    - erewrite output_switch_not_8 by done. simpl. eauto.
    - erewrite output_switch_unrecognized by done. simpl. eauto.
    - erewrite output_switch_index_error by done. simpl. eauto.
    - erewrite output_switch_persist_fails by done. simpl. eauto.
    - erewrite output_switch_commit by done. simpl. eauto. }
  by rewrite (events_since_app _ _ _ Hevs).
Qed.

(** ** The port setter *)

(** The setter on a list of eight entries. *)
Lemma port_setter_run (self : PCF8574) (value : list slot) (s : Sys) :
  length value = 8%nat →
  port_setter self value s =
  let w := with_event (EvBusWrite (address self) (port_byte value)) (env s) in
  if bus_down (env s) then (Raised (OSError (Chip (address self))), mkSys (this s) w)
  else (Normal (), mkSys (this s) (with_regs (<[address self := port_byte value]> (regs w)) w)).
Proof.
  intros Hlen. destruct s as [o [fs hd rg ur uw bd tr]].
  run. rewrite bool_decide_true by done. run. done.
Qed.

(** C1. Setting the port from a vector [v] of eight booleans issues exactly
    one byte transfer to the chip's address, and the byte has bit [7 - i] set
    exactly when [v[i]] is true (index 0 is bit 7, index 7 is bit 0); no bit
    above bit 7 is set, and when the bus works the register holds that
    byte. *)
Theorem port_setter_packs_msb_first (self : PCF8574) (v : list bool) (s : Sys) :
  length v = 8%nat →
  let value : list slot := Some <$> v in
  let byte := port_byte value in
  let s' := (port_setter self value s).2 in
  trace (env s') = trace (env s) ++ [EvBusWrite (address self) byte] ∧
  (∀ i : nat, (i < 8)%nat → v !! i = Some (Z.testbit byte (7 - Z.of_nat i))) ∧
  (∀ n : Z, 8 ≤ n → Z.testbit byte n = false) ∧
  (bus_down (env s) = false →
   (port_setter self value s).1 = Normal () ∧
   regs (env s') !! address self = Some byte).
Proof.
  intros Hlen value byte s'.
  assert (length value = 8%nat) as Hlen' by (unfold value; by rewrite length_fmap).
  subst s'. rewrite port_setter_run by done.
  split_and!.
  - by destruct (bus_down (env s)).
  - intros i Hi. unfold byte. rewrite port_byte_testbit by done.
    unfold slot_bit, value. rewrite list_lookup_fmap.
    destruct (v !! i) as [[]|] eqn:Hv; simpl; try done.
    apply lookup_ge_None in Hv. lia.
  - intros n Hn. by apply port_byte_high.
  - intros ->. simpl. split; [done|]. apply lookup_insert_eq.
Qed.

Lemma port_setter_packs_msb_first_witness :
  let v := [true; false; false; true; false; false; false; true] in
  let s := mkSys (controller (Some 1) true) fresh_world in
  let value : list slot := Some <$> v in
  let byte := port_byte value in
  let s' := (port_setter chip0 value s).2 in
  trace (env s') = trace (env s) ++ [EvBusWrite (address chip0) byte] ∧
  (∀ i : nat, (i < 8)%nat → v !! i = Some (Z.testbit byte (7 - Z.of_nat i))) ∧
  (∀ n : Z, 8 ≤ n → Z.testbit byte n = false) ∧
  (bus_down (env s) = false →
   (port_setter chip0 value s).1 = Normal () ∧
   regs (env s') !! address chip0 = Some byte).
Proof.
  apply (port_setter_packs_msb_first chip0
           [true; false; false; true; false; false; false; true]
           (mkSys (controller (Some 1) true) fresh_world)).
  reflexivity.
Defined.

Example port_byte_sample :
  port_byte [Some true; None; Some false; Some true; None; None; None; Some true] = 145.
Proof. reflexivity. Qed.

(** ** Events of a call *)

Lemma bus_writes_app evs1 evs2 :
  bus_writes (evs1 ++ evs2) = bus_writes evs1 ++ bus_writes evs2.
Proof.
  induction evs1 as [|ev evs1 IH]; [done|].
  destruct ev; simpl; by rewrite IH.
Qed.

Lemma bus_writes_write_events path l : bus_writes (write_event path <$> l) = [].
Proof. by induction l. Qed.

Lemma bus_writes_read_events w path : bus_writes (read_events w path) = [].
Proof. unfold read_events. by destruct (bool_decide _). Qed.

Lemma read_events_no_output w path :
  Forall (λ ev, is_output ev = false) (read_events w path).
Proof. unfold read_events. destruct (bool_decide _); repeat constructor. Qed.

Lemma released_lock_not_held (lf : string) (hd : gset string) :
  lf ∉ ({[lf]} ∪ hd) ∖ {[lf]}.
Proof. rewrite elem_of_difference, elem_of_singleton. intros [_ Hn]. by apply Hn. Qed.

(** ** The claims *)

(** C2. Frame of a successful switch.  The module numbers channels from 1, so
    slot [i] of the state list (0..7) belongs to the controller configured
    with channel [i + 1].  From any committed state [st] (the durable record
    loads to [st] and the register holds the byte packed from it), a switch
    to on or off that obtains the lock and meets no I/O failure persists
    exactly [st] with slot [i] replaced, and for every other channel [j] both
    the persisted slot and register bit [7 - j] are what they were. *)
Theorem output_switch_preserves_other_channels s state (i : nat) st :
  committed s st →
  channel (this s) = Some (Z.of_nat i + 1) → (i < 8)%nat →
  state = "on" ∨ state = "off" →
  lock_file (this s) ∉ held (env s) →
  can_load (env s) (state_file (this s)) →
  state_file (this s) ∉ unwritable (env s) →
  bus_down (env s) = false →
  let s' := (output_switch state s).2 in
  let v := physical_level state (output_on_state (this s)) in
  persisted s' = Some (<[i := Some v]> st) ∧
  ∀ j : nat, (j < 8)%nat → j ≠ i →
    load_states (env s') (state_file (this s')) !! j = st !! j ∧
    ∃ byte, regs (env s') !! address (sensor (this s')) = Some byte ∧
            Z.testbit byte (7 - Z.of_nat j) = Z.testbit (port_byte st) (7 - Z.of_nat j).
Proof.
  intros (Hload & Hlen & Hreg) Hc Hi Hstate Hl Hr Hw Hbus s' v. subst s' v.
  rewrite (output_switch_commit s state _ i Hc Hl Hr Hw) by
    (rewrite ?Hload; auto using py_index_in_range).
  rewrite Hload, Hbus. unfold persisted, load_states. simpl.
  rewrite !lookup_insert_eq. simpl. rewrite read_write_states.
  split; [done|]. intros j Hj Hne. split.
  - by apply list_lookup_insert_ne.
  - eexists. split; [done|].
    rewrite !port_byte_testbit by (by rewrite ?length_insert).
    by apply slot_bit_insert_ne.
Qed.

Lemma output_switch_preserves_other_channels_witness :
  let s := mkSys (controller (Some 3) true) world_committed in
  let s' := (output_switch "off" s).2 in
  let v := physical_level "off" (output_on_state (this s)) in
  persisted s' = Some (<[2%nat := Some v]> sample_states) ∧
  ∀ j : nat, (j < 8)%nat → j ≠ 2%nat →
    load_states (env s') (state_file (this s')) !! j = sample_states !! j ∧
    ∃ byte, regs (env s') !! address (sensor (this s')) = Some byte ∧
            Z.testbit byte (7 - Z.of_nat j) =
            Z.testbit (port_byte sample_states) (7 - Z.of_nat j).
Proof.
  apply (output_switch_preserves_other_channels
           (mkSys (controller (Some 3) true) world_committed) "off" 2%nat sample_states).
  - split_and!; reflexivity.
  - reflexivity.
  - lia.
  - right. reflexivity.
  - simpl. apply not_elem_of_empty.
  - intros _. simpl. apply not_elem_of_empty.
  - simpl. apply not_elem_of_empty.
  - reflexivity.
Defined.

(** The bytes a call sends: none, or the one packed from the updated list. *)
Lemma output_switch_bus_writes state s :
  let s' := (output_switch state s).2 in
  bus_writes (events_since s s') = [] ∨
  ∃ c i,
    channel (this s) = Some c ∧ py_index 8 (c - 1) = Some i ∧
    length (load_states (env s) (state_file (this s))) = 8%nat ∧
    bus_writes (events_since s s') =
    [(address (sensor (this s)),
      port_byte (<[i := Some (physical_level state (output_on_state (this s)))]>
                   (load_states (env s) (state_file (this s)))))].
Proof.
  intros s'. subst s'.
  destruct (output_switch_paths state s) as
    [Hc|c Hc Hl|c Hc Hl Hf Hu|c text Hc Hl Hr Hf Hlen|c Hc Hl Hr Hlen Hon Hoff
    |c Hc Hl Hr Hlen Hst Hi|c i Hc Hl Hr Hlen Hst Hi Hw|c i Hc Hl Hr Hlen Hst Hi Hw].
  - left. rewrite output_switch_no_channel by done.
    by erewrite events_since_app by (simpl; reflexivity).
  - left. erewrite output_switch_lock_timeout by done.
    by erewrite events_since_app by (simpl; reflexivity).
  - left. erewrite output_switch_unreadable by done.
    by erewrite events_since_app by (simpl; reflexivity).
  - left. erewrite output_switch_not_8 by done.
    by erewrite events_since_app by (simpl; reflexivity).
  - left. erewrite output_switch_unrecognized by done.
    erewrite events_since_app by (simpl; reflexivity). simpl.
    by rewrite bus_writes_app, bus_writes_read_events.
  - left. erewrite output_switch_index_error by done.
    erewrite events_since_app by (simpl; reflexivity). simpl.
    by rewrite bus_writes_app, bus_writes_read_events.
  - left. erewrite output_switch_persist_fails by done.
    erewrite events_since_app by (simpl; reflexivity). simpl.
    by rewrite bus_writes_app, bus_writes_read_events.
  - right. exists c, i. split_and!; try done.
    erewrite output_switch_commit by done.
    erewrite events_since_app by (simpl; reflexivity). simpl.
    rewrite bus_writes_app, bus_writes_read_events. simpl.
    rewrite bus_writes_app, bus_writes_write_events. simpl.
    by destruct (bus_down (env s)).
Qed.

(** C9. Whenever [output_switch] puts a byte on the bus, it is the only byte
    of the call, it goes to the chip of the controller, and every slot [j]
    other than the one being switched that the loaded state list holds as
    [None] has bit [7 - j] of that byte equal to 0. *)
Theorem unknown_slots_written_as_false s state addr byte :
  (addr, byte) ∈ bus_writes (events_since s (output_switch state s).2) →
  ∃ c i,
    channel (this s) = Some c ∧ py_index 8 (c - 1) = Some i ∧
    bus_writes (events_since s (output_switch state s).2) =
      [(address (sensor (this s)), byte)] ∧
    ∀ j : nat, (j < 8)%nat → j ≠ i →
      load_states (env s) (state_file (this s)) !! j = Some None →
      Z.testbit byte (7 - Z.of_nat j) = false.
Proof.
  intros Hin.
  destruct (output_switch_bus_writes state s) as [Hnil|(c & i & Hc & Hi & Hlen & Hone)].
  - rewrite Hnil in Hin. by apply elem_of_nil in Hin.
  - rewrite Hone in Hin. apply list_elem_of_singleton in Hin. injection Hin as -> ->.
    exists c, i. split_and!; try done.
    intros j Hj Hne Hnone.
    rewrite port_byte_testbit by (by rewrite ?length_insert).
    rewrite slot_bit_insert_ne by done. unfold slot_bit. by rewrite Hnone.
Qed.

Lemma unknown_slots_written_as_false_witness :
  let s := mkSys (controller (Some 3) true) world_committed in
  ∃ c i,
    channel (this s) = Some c ∧ py_index 8 (c - 1) = Some i ∧
    bus_writes (events_since s (output_switch "on" s).2) =
      [(address (sensor (this s)), 176)] ∧
    ∀ j : nat, (j < 8)%nat → j ≠ i →
      load_states (env s) (state_file (this s)) !! j = Some None →
      Z.testbit 176 (7 - Z.of_nat j) = false.
Proof.
  apply (unknown_slots_written_as_false
           (mkSys (controller (Some 3) true) world_committed) "on" 32 176).
  vm_compute. left.
Defined.

(** After a committed switch [is_on] answers the level written to the slot. *)
Lemma is_on_after_commit s state c i :
  output_setup (this s) = true →
  channel (this s) = Some c →
  lock_file (this s) ∉ held (env s) →
  can_load (env s) (state_file (this s)) →
  state_file (this s) ∉ unwritable (env s) →
  length (load_states (env s) (state_file (this s))) = 8%nat →
  state = "on" ∨ state = "off" →
  py_index 8 (c - 1) = Some i →
  is_on (this (output_switch state s).2) =
  Some (physical_level state (output_on_state (this s))).
Proof.
  intros Hsetup Hc Hl Hr Hw Hlen Hstate Hi.
  rewrite (output_switch_commit s state c i) by done.
  unfold is_on, is_setup. simpl. by rewrite Hsetup.
Qed.

(** C3. A controller with [output_on_state = False] on channel 1 of a fresh
    device, switched on: the slot and the byte on the wire are low, as the
    polarity demands, but [is_on] then answers [False], the level of the pin,
    where the logical state is on. *)
Theorem active_low_on_reports_false :
  let s := mkSys (controller (Some 1) false) fresh_world in
  let s' := (output_switch "on" s).2 in
  persisted s' = Some [Some false; None; None; None; None; None; None; None] ∧
  bus_writes (events_since s s') = [(32, 0)] ∧
  is_on (this s') = Some false.
Proof. vm_compute. done. Qed.

(** C4, as the code has it. Fresh device, no state file, [output_on_state = True],
    switching on the channel of slot 3 (channel number 4): the persisted list
    is [None, None, None, True, None, None, None, None], the untouched slots
    staying unknown, and one byte, [0b00010000], is written to the
    register. *)
Theorem fresh_device_switch_on s :
  channel (this s) = Some 4 →
  output_on_state (this s) = true →
  files (env s) !! state_file (this s) = None →
  lock_file (this s) ∉ held (env s) →
  state_file (this s) ∉ unwritable (env s) →
  bus_down (env s) = false →
  let s' := (output_switch "on" s).2 in
  persisted s' = Some [None; None; None; Some true; None; None; None; None] ∧
  bus_writes (events_since s s') = [(address (sensor (this s)), 16)] ∧
  regs (env s') !! address (sensor (this s)) = Some 16.
Proof.
  intros Hc Hon Hfile Hl Hw Hbus s'. subst s'.
  assert (can_load (env s) (state_file (this s))) as Hr.
  { intros [? Hsome]. by rewrite Hfile in Hsome. }
  rewrite (output_switch_commit s "on" 4 3 Hc Hl Hr Hw) by
    (rewrite ?load_states_length_absent; auto).
  rewrite Hbus, Hon. unfold persisted, load_states. rewrite Hfile. simpl.
  rewrite !lookup_insert_eq. split_and!; [done| |done].
  erewrite events_since_app by (simpl; reflexivity). simpl.
  by rewrite bus_writes_app, bus_writes_read_events.
Qed.

Lemma fresh_device_switch_on_witness :
  let s := mkSys (controller (Some 4) true) fresh_world in
  let s' := (output_switch "on" s).2 in
  persisted s' = Some [None; None; None; Some true; None; None; None; None] ∧
  bus_writes (events_since s s') = [(address (sensor (this s)), 16)] ∧
  regs (env s') !! address (sensor (this s)) = Some 16.
Proof.
  apply fresh_device_switch_on; [reflexivity | reflexivity | reflexivity | | | reflexivity].
  - vm_compute. set_solver.
  - simpl. set_solver.
Defined.

(** On a fresh device the persisted list is not the all-boolean list, whether
    the controller is configured with channel number 4 (slot 3) or 3. *)
Lemma fresh_device_record_keeps_unknown :
  persisted (output_switch "on" (mkSys (controller (Some 4) true) fresh_world)).2 ≠
    Some [Some false; Some false; Some false; Some true; Some false; Some false; Some false;
          Some false] ∧
  persisted (output_switch "on" (mkSys (controller (Some 3) true) fresh_world)).2 ≠
    Some [Some false; Some false; Some false; Some true; Some false; Some false; Some false;
          Some false].
Proof. split; vm_compute; discriminate. Qed.

(** C5, as the code has it. When the state file exists and the read loop finds a number
    of tokens other than 8 in it, [output_switch] logs the error about the
    8 elements and returns to its caller in the ordinary way: nothing is
    raised, no default list is used, the register and the state file are not
    written, the controller object is unchanged and the lock is released. *)
Theorem short_record_logged_not_raised s state c text :
  channel (this s) = Some c →
  lock_file (this s) ∉ held (env s) →
  files (env s) !! state_file (this s) = Some text →
  state_file (this s) ∉ unreadable (env s) →
  length (read_states text) ≠ 8%nat →
  let r := output_switch state s in
  r.1 = Normal () ∧
  EvLog Error Not8Elements ∈ events_since s r.2 ∧
  Forall (λ ev, is_output ev = false) (events_since s r.2) ∧
  files (env r.2) = files (env s) ∧
  regs (env r.2) = regs (env s) ∧
  this r.2 = this s ∧
  lock_file (this s) ∉ held (env r.2).
Proof.
  intros Hc Hl Hfile Hr Hlen r. subst r.
  assert (can_load (env s) (state_file (this s))) as Hload by (by intros _).
  rewrite (output_switch_not_8 s state c text) by done.
  erewrite events_since_app by (simpl; reflexivity). simpl.
  split_and!; try done.
  - rewrite !elem_of_cons. auto 10.
  - repeat constructor.
  - apply released_lock_not_held.
Qed.

Lemma short_record_logged_not_raised_witness :
  let s := mkSys (controller (Some 1) true) (world_with_record seven_tokens) in
  let r := output_switch "on" s in
  r.1 = Normal () ∧
  EvLog Error Not8Elements ∈ events_since s r.2 ∧
  Forall (λ ev, is_output ev = false) (events_since s r.2) ∧
  files (env r.2) = files (env s) ∧
  regs (env r.2) = regs (env s) ∧
  this r.2 = this s ∧
  lock_file (this s) ∉ held (env r.2).
Proof.
  apply (short_record_logged_not_raised
           (mkSys (controller (Some 1) true) (world_with_record seven_tokens))
           "on" 1 seven_tokens).
  - reflexivity.
  - simpl. apply not_elem_of_empty.
  - reflexivity.
  - simpl. apply not_elem_of_empty.
  - vm_compute. lia.
Defined.

(** A record of seven tokens: switching on raises nothing. *)
Lemma seven_token_record_raises_nothing :
  let s := mkSys (controller (Some 1) true) (world_with_record seven_tokens) in
  length (read_states seven_tokens) = 7%nat ∧
  ¬ ∃ e, (output_switch "on" s).1 = Raised e.
Proof.
  split; [reflexivity|]. intros [e He]. vm_compute in He. discriminate.
Qed.

(** C6, as the code has it. When opening the state file for writing fails, or the byte
    transfer fails, [output_switch] still returns to its caller in the
    ordinary way: the exception is caught, the lock is released, and the last
    thing it does is to log the state change error; the register is as it
    was before the call. *)
Theorem failed_write_is_logged_not_raised s state (i : nat) :
  channel (this s) = Some (Z.of_nat i + 1) → (i < 8)%nat →
  state = "on" ∨ state = "off" →
  lock_file (this s) ∉ held (env s) →
  can_load (env s) (state_file (this s)) →
  length (load_states (env s) (state_file (this s))) = 8%nat →
  state_file (this s) ∈ unwritable (env s) ∨ bus_down (env s) = true →
  let r := output_switch state s in
  r.1 = Normal () ∧
  (∃ evs res, events_since s r.2 =
     evs ++ [EvUnlock (lock_file (this s)); EvLog Error (StateChangeError (OSError res))]) ∧
  regs (env r.2) = regs (env s) ∧
  lock_file (this s) ∉ held (env r.2).
Proof.
  intros Hc Hi Hstate Hl Hr Hlen Hfail r. subst r.
  pose proof (py_index_in_range 8 i Hi) as Hidx.
  destruct (decide (state_file (this s) ∈ unwritable (env s))) as [Hw|Hw].
  - rewrite (output_switch_persist_fails s state _ i) by done.
    erewrite events_since_app by (simpl; reflexivity). simpl.
    split_and!; [done| |done|apply released_lock_not_held].
    eexists (EvLock _ true :: read_events _ _ ++ [_; _; _]), _.
    simpl. rewrite <- app_assoc. done.
  - destruct Hfail as [?|Hbus]; [done|].
    rewrite (output_switch_commit s state _ i) by done. rewrite Hbus.
    erewrite events_since_app by (simpl; reflexivity). simpl.
    split_and!; [done| |done|apply released_lock_not_held].
    eexists (EvLock _ true :: read_events _ _ ++ [_; _; _] ++ (write_event _ <$> _) ++ [_]), _.
    simpl. rewrite <- !app_assoc. simpl. rewrite <- !app_assoc. done.
Qed.

Lemma failed_write_is_logged_not_raised_witness :
  let s := mkSys (controller (Some 1) true) world_bus_down in
  let r := output_switch "on" s in
  r.1 = Normal () ∧
  (∃ evs res, events_since s r.2 =
     evs ++ [EvUnlock (lock_file (this s)); EvLog Error (StateChangeError (OSError res))]) ∧
  regs (env r.2) = regs (env s) ∧
  lock_file (this s) ∉ held (env r.2).
Proof.
  apply (failed_write_is_logged_not_raised
           (mkSys (controller (Some 1) true) world_bus_down) "on" 0%nat).
  - reflexivity.
  - lia.
  - left. reflexivity.
  - simpl. apply not_elem_of_empty.
  - intros [text Hsome]. vm_compute in Hsome. discriminate.
  - reflexivity.
  - right. reflexivity.
Defined.

(** With the bus down, switching on raises nothing, and [is_on], which
    answered [None] before the call, answers [True] after it. *)
Lemma bus_failure_changes_is_on_silently :
  let s := mkSys (controller (Some 1) true) world_bus_down in
  let r := output_switch "on" s in
  bus_down (env s) = true ∧
  (¬ ∃ e, r.1 = Raised e) ∧
  is_on (this s) = None ∧ is_on (this r.2) = Some true.
Proof.
  split_and!; try reflexivity.
  intros [e He]. vm_compute in He. discriminate.
Qed.

(** C8, as the code has it. When the lock is not obtained within the timeout,
    [output_switch] returns to its caller in the ordinary way without raising;
    the only event of the call is the failed acquisition, so the state file is
    neither examined, read nor written, no byte is sent, and files, register
    and controller object are unchanged. *)
Theorem lock_timeout_returns_without_io s state c :
  channel (this s) = Some c →
  lock_file (this s) ∈ held (env s) →
  let r := output_switch state s in
  r.1 = Normal () ∧
  events_since s r.2 = [EvLock (lock_file (this s)) false] ∧
  Forall (λ ev, is_io ev = false) (events_since s r.2) ∧
  files (env r.2) = files (env s) ∧
  regs (env r.2) = regs (env s) ∧
  this r.2 = this s.
Proof.
  intros Hc Hl r. subst r.
  rewrite (output_switch_lock_timeout s state c) by done.
  erewrite events_since_app by (simpl; reflexivity). simpl.
  split_and!; try done. repeat constructor.
Qed.

Lemma lock_timeout_returns_without_io_witness :
  let s := mkSys (controller (Some 1) true) world_locked in
  let r := output_switch "on" s in
  r.1 = Normal () ∧
  events_since s r.2 = [EvLock (lock_file (this s)) false] ∧
  Forall (λ ev, is_io ev = false) (events_since s r.2) ∧
  files (env r.2) = files (env s) ∧
  regs (env r.2) = regs (env s) ∧
  this r.2 = this s.
Proof.
  apply (lock_timeout_returns_without_io
           (mkSys (controller (Some 1) true) world_locked) "on" 1).
  - reflexivity.
  - simpl. apply elem_of_singleton. reflexivity.
Defined.

(** With the lock file held, switching on raises nothing. *)
Lemma lock_timeout_raises_nothing :
  let s := mkSys (controller (Some 1) true) world_locked in
  lock_file (this s) ∈ held (env s) ∧
  ¬ ∃ e, (output_switch "on" s).1 = Raised e.
Proof.
  split.
  - simpl. apply elem_of_singleton. reflexivity.
  - intros [e He]. vm_compute in He. discriminate.
Qed.

Lemma read_events_only_read w path :
  Forall (λ ev, is_io ev = true → ev = EvExists path ∨ ev = EvOpenRead path)
    (read_events w path).
Proof.
  unfold read_events.
  destruct (bool_decide _); repeat (constructor; [intros _; auto|]); constructor.
Qed.

(** Each event of an explicit list is no access, or one of the two reads. *)
Ltac only_reads :=
  repeat (constructor; [first [intros _; by auto | simpl; by intros ?]|]); constructor.

(** C10, as the code has it. For a requested state other than ['on'] and
    ['off'], whatever the world, [output_switch] returns having sent no byte
    to the register and having neither opened the state file for writing nor
    written to it; the files and the register are unchanged and [is_on]
    answers as before.  The request is rejected after the loading step, so the
    call may have taken the lock, tested the existence of its state file and
    read it; it accesses the file and the bus in no other way. *)
Theorem unrecognized_state_changes_nothing s state :
  state ≠ "on" → state ≠ "off" →
  let r := output_switch state s in
  r.1 = Normal () ∧
  bus_writes (events_since s r.2) = [] ∧
  Forall (λ ev, is_output ev = false) (events_since s r.2) ∧
  Forall (λ ev, is_io ev = true →
                ev = EvExists (state_file (this s)) ∨ ev = EvOpenRead (state_file (this s)))
    (events_since s r.2) ∧
  files (env r.2) = files (env s) ∧
  regs (env r.2) = regs (env s) ∧
  is_on (this r.2) = is_on (this s).
Proof.
  intros Hon Hoff r. subst r.
  destruct (output_switch_paths state s) as
    [Hc|c Hc Hl|c Hc Hl Hf Hu|c text Hc Hl Hr Hf Hlen|c Hc Hl Hr Hlen _ _
    |c Hc Hl Hr Hlen [?|?]|c i Hc Hl Hr Hlen [?|?]|c i Hc Hl Hr Hlen [?|?]]; try done.
  - rewrite output_switch_no_channel by done.
    erewrite events_since_app by (simpl; reflexivity). simpl.
    split_and!; try done; [repeat constructor|only_reads].
  - erewrite output_switch_lock_timeout by done.
    erewrite events_since_app by (simpl; reflexivity). simpl.
    split_and!; try done; [repeat constructor|only_reads].
  - erewrite output_switch_unreadable by done.
    erewrite events_since_app by (simpl; reflexivity). simpl.
    split_and!; try done; [repeat constructor|only_reads].
  - erewrite output_switch_not_8 by done.
    erewrite events_since_app by (simpl; reflexivity). simpl.
    split_and!; try done; [repeat constructor|only_reads].
  - erewrite output_switch_unrecognized by done.
    erewrite events_since_app by (simpl; reflexivity). simpl.
    split_and!; try done.
    + by rewrite bus_writes_app, bus_writes_read_events.
    + constructor; [done|]. apply Forall_app. split; [apply read_events_no_output|].
      repeat constructor.
    + constructor; [done|]. apply Forall_app. split; [apply read_events_only_read|].
      only_reads.
Qed.

Lemma unrecognized_state_changes_nothing_witness :
  let s := mkSys (controller (Some 1) true) fresh_world in
  let r := output_switch "toggle" s in
  r.1 = Normal () ∧
  bus_writes (events_since s r.2) = [] ∧
  Forall (λ ev, is_output ev = false) (events_since s r.2) ∧
  Forall (λ ev, is_io ev = true →
                ev = EvExists (state_file (this s)) ∨ ev = EvOpenRead (state_file (this s)))
    (events_since s r.2) ∧
  files (env r.2) = files (env s) ∧
  regs (env r.2) = regs (env s) ∧
  is_on (this r.2) = is_on (this s).
Proof.
  apply (unrecognized_state_changes_nothing
           (mkSys (controller (Some 1) true) fresh_world) "toggle").
  - discriminate.
  - discriminate.
Defined.

(** A request that is neither on nor off, on a chip with a state file: the
    call tests for the file and reads it before it rejects the request, so it
    does perform I/O. *)
Lemma unrecognized_state_still_reads_the_record :
  let s := mkSys (controller (Some 3) true) world_committed in
  let s' := (output_switch "toggle" s).2 in
  "toggle" ≠ "on" ∧ "toggle" ≠ "off" ∧
  events_since s s' =
    [EvLock (lock_file (this s)) true;
     EvExists (state_file (this s));
     EvOpenRead (state_file (this s));
     EvLog Debug (ReadStates (state_file (this s)) sample_states);
     EvLog Error (UnrecognizedState "toggle");
     EvUnlock (lock_file (this s))] ∧
  ¬ Forall (λ ev, is_io ev = false) (events_since s s').
Proof.
  assert (events_since (mkSys (controller (Some 3) true) world_committed)
            (output_switch "toggle" (mkSys (controller (Some 3) true) world_committed)).2 =
          [EvLock "/var/lock/pcf8574_1_0x20" true;
           EvExists "/var/lock/pcf8574_1_0x20.states";
           EvOpenRead "/var/lock/pcf8574_1_0x20.states";
           EvLog Debug (ReadStates "/var/lock/pcf8574_1_0x20.states" sample_states);
           EvLog Error (UnrecognizedState "toggle");
           EvUnlock "/var/lock/pcf8574_1_0x20"]) as Hevs by (vm_compute; reflexivity).
  cbv zeta. split_and!; [discriminate|discriminate|exact Hevs|].
  rewrite Hevs. intros Hall.
  apply Forall_cons in Hall as [_ Hall]. apply Forall_cons in Hall as [Hio _].
  discriminate Hio.
Qed.

(** * Further properties *)

(** ** [output_switch] on every path *)

Lemma release_restores_held (lf : string) (hd : gset string) :
  lf ∉ hd → ({[lf]} ∪ hd) ∖ {[lf]} = hd.
Proof.
  intros Hl. apply set_eq. intros x.
  rewrite elem_of_difference, elem_of_union, elem_of_singleton.
  split; [intros [[->|?] ?]; done|]. intros Hx. split; [by right|]. by intros ->.
Qed.

Lemma output_switch_frame state s :
  let s' := (output_switch state s).2 in
  held (env s') = held (env s) ∧
  unreadable (env s') = unreadable (env s) ∧
  unwritable (env s') = unwritable (env s) ∧
  bus_down (env s') = bus_down (env s).
Proof.
  intros s'. subst s'.
  destruct (output_switch_paths state s) as
    [Hc|c Hc Hl|c Hc Hl Hf Hu|c text Hc Hl Hr Hf Hlen|c Hc Hl Hr Hlen Hon Hoff
    |c Hc Hl Hr Hlen Hst Hi|c i Hc Hl Hr Hlen Hst Hi Hw|c i Hc Hl Hr Hlen Hst Hi Hw].
  - by rewrite output_switch_no_channel.
  - by erewrite output_switch_lock_timeout.
  - erewrite output_switch_unreadable by done. simpl. by rewrite release_restores_held.
  - erewrite output_switch_not_8 by done. simpl. by rewrite release_restores_held.
  - erewrite output_switch_unrecognized by done. simpl. by rewrite release_restores_held.
  - erewrite output_switch_index_error by done. simpl. by rewrite release_restores_held.
  - erewrite output_switch_persist_fails by done. simpl. by rewrite release_restores_held.
  - erewrite output_switch_commit by done. simpl. by rewrite release_restores_held.
Qed.

Lemma output_switch_effect state s : switch_effect state s (output_switch state s).2.
Proof.
  destruct (output_switch_paths state s) as
    [Hc|c Hc Hl|c Hc Hl Hf Hu|c text Hc Hl Hr Hf Hlen|c Hc Hl Hr Hlen Hon Hoff
    |c Hc Hl Hr Hlen Hst Hi|c i Hc Hl Hr Hlen Hst Hi Hw|c i Hc Hl Hr Hlen Hst Hi Hw].
  - rewrite output_switch_no_channel by done. apply EffectNone; try done.
    by erewrite events_since_app by (simpl; reflexivity).
  - erewrite output_switch_lock_timeout by done. apply EffectNone; try done.
    by erewrite events_since_app by (simpl; reflexivity).
  - erewrite output_switch_unreadable by done. apply EffectNone; try done.
    by erewrite events_since_app by (simpl; reflexivity).
  - erewrite output_switch_not_8 by done. apply EffectNone; try done.
    by erewrite events_since_app by (simpl; reflexivity).
  - erewrite output_switch_unrecognized by done. apply EffectNone; try done.
    erewrite events_since_app by (simpl; reflexivity). simpl.
    by rewrite bus_writes_app, bus_writes_read_events.
  - erewrite output_switch_index_error by done. eapply EffectLevelOnly; try done.
    erewrite events_since_app by (simpl; reflexivity). simpl.
    by rewrite bus_writes_app, bus_writes_read_events.
  - erewrite output_switch_persist_fails by done. eapply EffectLevelOnly; try done.
    erewrite events_since_app by (simpl; reflexivity). simpl.
    by rewrite bus_writes_app, bus_writes_read_events.
  - erewrite output_switch_commit by done. eapply (EffectCommit _ _ _ c i); try done.
    erewrite events_since_app by (simpl; reflexivity). simpl.
    rewrite bus_writes_app, bus_writes_read_events. simpl.
    rewrite bus_writes_app, bus_writes_write_events. simpl.
    by destruct (bus_down (env s)).
Qed.

Lemma effect_state_file state s s' :
  switch_effect state s s' → state_file (this s') = state_file (this s).
Proof. intros [H ?|? ? ? ? H|? ? ? ? ? ? ? ? ? ? H]; by rewrite H. Qed.

Lemma effect_same_controller state s s' :
  switch_effect state s s' →
  channel (this s') = channel (this s) ∧
  output_on_state (this s') = output_on_state (this s) ∧
  output_setup (this s') = output_setup (this s) ∧
  lock_file (this s') = lock_file (this s) ∧
  state_file (this s') = state_file (this s) ∧
  sensor (this s') = sensor (this s).
Proof. intros [H ?|? ? ? ? H|? ? ? ? ? ? ? ? ? ? H]; by rewrite H. Qed.

(** X1. No exception leaves [output_switch]: whatever the request, the
    controller and the world, the call returns [None] to its caller. *)
Theorem output_switch_never_raises state s :
  (output_switch state s).1 = Normal ().
Proof. apply output_switch_returns_none. Qed.

(** X2. A call leaves the set of held lock files as it found it: a lock it
    took is released on every way out, and a lock held by someone else is
    still held. *)
Theorem output_switch_restores_locks state s :
  held (env (output_switch state s).2) = held (env s).
Proof. apply output_switch_frame. Qed.

(** X4. A call that reports no state change error keeps the record well
    formed: when the state list loads with 8 entries before it (from the
    file, or as the default when there is no file), it loads with 8 entries
    after it. *)
Theorem output_switch_keeps_record_well_formed state s :
  length (load_states (env s) (state_file (this s))) = 8%nat →
  reports_failure (events_since s (output_switch state s).2) = false →
  let s' := (output_switch state s).2 in
  length (load_states (env s') (state_file (this s'))) = 8%nat.
Proof.
  intros Hlen _ s'. subst s'.
  pose proof (output_switch_effect state s) as Heff.
  rewrite (effect_state_file _ _ _ Heff).
  destruct Heff as [_ Hf _ _|c _ _ _ _ Hf _ _|c i _ _ _ _ _ _ v l _ Hf _ _].
  - unfold load_states. by rewrite Hf.
  - unfold load_states. by rewrite Hf.
  - unfold load_states. rewrite Hf, lookup_insert_eq, read_write_states.
    subst l. by rewrite length_insert.
Qed.

Lemma output_switch_keeps_record_well_formed_witness :
  let s := mkSys (controller (Some 3) true) world_committed in
  let s' := (output_switch "on" s).2 in
  length (load_states (env s') (state_file (this s'))) = 8%nat.
Proof.
  apply (output_switch_keeps_record_well_formed "on"
           (mkSys (controller (Some 3) true) world_committed)).
  - reflexivity.
  - vm_compute. reflexivity.
Defined.

(** X5. A state file whose tokens do not number 8 is never repaired: whatever
    the request and the world, the call leaves the files, the register and
    the controller object as they were and sends no byte. *)
Theorem corrupt_record_is_never_overwritten state s text :
  files (env s) !! state_file (this s) = Some text →
  length (read_states text) ≠ 8%nat →
  let s' := (output_switch state s).2 in
  files (env s') = files (env s) ∧
  regs (env s') = regs (env s) ∧
  this s' = this s ∧
  bus_writes (events_since s s') = [].
Proof.
  intros Hfile Hlen s'. subst s'.
  assert (length (load_states (env s) (state_file (this s))) ≠ 8%nat) as Hload.
  { unfold load_states. by rewrite Hfile. }
  by destruct (output_switch_effect state s).
Qed.

Lemma corrupt_record_is_never_overwritten_witness :
  let s := mkSys (controller (Some 1) true) (world_with_record seven_tokens) in
  let s' := (output_switch "on" s).2 in
  files (env s') = files (env s) ∧
  regs (env s') = regs (env s) ∧
  this s' = this s ∧
  bus_writes (events_since s s') = [].
Proof.
  apply (corrupt_record_is_never_overwritten "on"
           (mkSys (controller (Some 1) true) (world_with_record seven_tokens)) seven_tokens).
  - reflexivity.
  - vm_compute. lia.
Defined.

Lemma reports_failure_app evs1 evs2 :
  reports_failure (evs1 ++ evs2) = reports_failure evs1 || reports_failure evs2.
Proof. apply existsb_app. Qed.

(** X6. A call that reports no state change error keeps register and record
    together: started where the register holds the byte packed from the
    loaded state list, it ends in such a state again. *)
Theorem output_switch_keeps_register_and_record_together state s st :
  committed s st →
  reports_failure (events_since s (output_switch state s).2) = false →
  let s' := (output_switch state s).2 in
  ∃ st', committed s' st'.
Proof.
  intros (Hload & Hlen & Hreg) Hquiet s'. subst s'. unfold committed.
  destruct (output_switch_paths state s) as
    [Hc|c Hc Hl|c Hc Hl Hf Hu|c text Hc Hl Hr Hf Hlen'|c Hc Hl Hr Hlen' Hon Hoff
    |c Hc Hl Hr Hlen' Hst Hi|c i Hc Hl Hr Hlen' Hst Hi Hw|c i Hc Hl Hr Hlen' Hst Hi Hw].
  - rewrite output_switch_no_channel by done. by exists st.
  - erewrite output_switch_lock_timeout by done. by exists st.
  - erewrite output_switch_unreadable by done. by exists st.
  - erewrite output_switch_not_8 by done. by exists st.
  - erewrite output_switch_unrecognized by done. by exists st.
  - erewrite output_switch_index_error by done. by exists st.
  - erewrite output_switch_persist_fails by done. by exists st.
  - rewrite (output_switch_commit s state c i) in Hquiet |- * by done.
    erewrite events_since_app in Hquiet by (simpl; reflexivity).
    destruct (bus_down (env s)).
    + exfalso. simpl in Hquiet.
      rewrite reports_failure_app in Hquiet. simpl in Hquiet.
      rewrite reports_failure_app in Hquiet. simpl in Hquiet.
      by rewrite !orb_true_r in Hquiet.
    + eexists. unfold load_states at 1. simpl.
      rewrite !lookup_insert_eq, read_write_states.
      split_and!; [done| |done]. by rewrite length_insert.
Qed.

Lemma output_switch_keeps_register_and_record_together_witness :
  let s := mkSys (controller (Some 3) true) world_committed in
  let s' := (output_switch "off" s).2 in
  ∃ st', committed s' st'.
Proof.
  apply (output_switch_keeps_register_and_record_together "off"
           (mkSys (controller (Some 3) true) world_committed) sample_states).
  - split_and!; reflexivity.
  - vm_compute. reflexivity.
Defined.


Lemma load_states_written w path l :
  files w !! path = Some (write_states l) → load_states w path = l.
Proof. intros H. unfold load_states. by rewrite H, read_write_states. Qed.

(** One switch after another on the same chip, each through its own
    controller, from a world without faults. *)
Lemma two_switches o1 o2 w state1 state2 (i j : nat) :
  same_chip o1 o2 →
  channel o1 = Some (Z.of_nat i + 1) → channel o2 = Some (Z.of_nat j + 1) →
  (i < 8)%nat → (j < 8)%nat →
  state1 = "on" ∨ state1 = "off" → state2 = "on" ∨ state2 = "off" →
  lock_file o1 ∉ held w →
  state_file o1 ∉ unreadable w → state_file o1 ∉ unwritable w →
  bus_down w = false →
  length (load_states w (state_file o1)) = 8%nat →
  let v1 := physical_level state1 (output_on_state o1) in
  let v2 := physical_level state2 (output_on_state o2) in
  let l := <[j := Some v2]> (<[i := Some v1]> (load_states w (state_file o1))) in
  let w1 := env (output_switch state1 (mkSys o1 w)).2 in
  let w2 := env (output_switch state2 (mkSys o2 w1)).2 in
  files w2 = <[state_file o1 := write_states l]> (files w) ∧
  regs w2 = <[address (sensor o1) := port_byte l]> (regs w).
Proof.
  intros (Hlf & Hsf & Hsens) Hc1 Hc2 Hi Hj Hst1 Hst2 Hl Hr Hw Hbus Hlen. simpl.
  rewrite (output_switch_commit (mkSys o1 w) state1 _ i Hc1 Hl) by
    (first [by intros _ | done | by apply py_index_in_range]).
  simpl. rewrite Hbus.
  erewrite (output_switch_commit _ state2 _ j); simpl.
  - rewrite <- Hsf, <- Hsens.
    erewrite load_states_written by (simpl; apply lookup_insert_eq).
    by rewrite !insert_insert_eq.
  - done.
  - rewrite <- Hlf. apply released_lock_not_held.
  - rewrite <- Hsf. by intros _.
  - by rewrite <- Hsf.
  - rewrite <- Hsf.
    erewrite load_states_written by (simpl; apply lookup_insert_eq).
    by rewrite length_insert.
  - done.
  - by apply py_index_in_range.
Qed.

(** X9. Two controllers of the same chip switching different channels, one
    call after the other and without faults: both orders end with the same
    files and the same register, the state list holds both new levels and the
    register the byte packed from it. *)
Theorem switches_on_distinct_channels_commute o1 o2 w state1 state2 (i j : nat) :
  same_chip o1 o2 →
  channel o1 = Some (Z.of_nat i + 1) → channel o2 = Some (Z.of_nat j + 1) →
  (i < 8)%nat → (j < 8)%nat → i ≠ j →
  state1 = "on" ∨ state1 = "off" → state2 = "on" ∨ state2 = "off" →
  lock_file o1 ∉ held w →
  state_file o1 ∉ unreadable w → state_file o1 ∉ unwritable w →
  bus_down w = false →
  length (load_states w (state_file o1)) = 8%nat →
  let w12 := env (output_switch state2
                    (mkSys o2 (env (output_switch state1 (mkSys o1 w)).2))).2 in
  let w21 := env (output_switch state1
                    (mkSys o1 (env (output_switch state2 (mkSys o2 w)).2))).2 in
  let l := <[j := Some (physical_level state2 (output_on_state o2))]>
             (<[i := Some (physical_level state1 (output_on_state o1))]>
                (load_states w (state_file o1))) in
  files w12 = files w21 ∧ regs w12 = regs w21 ∧
  load_states w12 (state_file o1) = l ∧
  regs w12 !! address (sensor o1) = Some (port_byte l).
Proof.
  intros Hsame Hc1 Hc2 Hi Hj Hne Hst1 Hst2 Hl Hr Hw Hbus Hlen w12 w21 l.
  destruct (two_switches o1 o2 w state1 state2 i j) as [Hf12 Hr12]; try done.
  destruct Hsame as (Hlf & Hsf & Hsens).
  destruct (two_switches o2 o1 w state2 state1 j i) as [Hf21 Hr21];
    rewrite <- ?Hlf, <- ?Hsf; try done.
  rewrite <- ?Hsf, <- ?Hsens in Hf21, Hr21.
  rewrite (list_insert_insert_ne _ i j) in Hf21, Hr21 by done.
  subst w12 w21 l. split_and!.
  - by rewrite Hf12, Hf21.
  - by rewrite Hr12, Hr21, Hsens.
  - apply load_states_written. rewrite Hf12. apply lookup_insert_eq.
  - rewrite Hr12. apply lookup_insert_eq.
Qed.

Lemma switches_on_distinct_channels_commute_witness :
  let o1 := controller (Some 1) true in
  let o2 := controller (Some 4) false in
  let w := world_committed in
  let w12 := env (output_switch "on"
                    (mkSys o2 (env (output_switch "off" (mkSys o1 w)).2))).2 in
  let w21 := env (output_switch "off"
                    (mkSys o1 (env (output_switch "on" (mkSys o2 w)).2))).2 in
  let l := <[3%nat := Some (physical_level "on" (output_on_state o2))]>
             (<[0%nat := Some (physical_level "off" (output_on_state o1))]>
                (load_states w (state_file o1))) in
  files w12 = files w21 ∧ regs w12 = regs w21 ∧
  load_states w12 (state_file o1) = l ∧
  regs w12 !! address (sensor o1) = Some (port_byte l).
Proof.
  apply (switches_on_distinct_channels_commute
           (controller (Some 1) true) (controller (Some 4) false) world_committed
           "off" "on" 0%nat 3%nat).
  - split_and!; reflexivity.
  - reflexivity.
  - reflexivity.
  - lia.
  - lia.
  - lia.
  - right. reflexivity.
  - left. reflexivity.
  - simpl. apply not_elem_of_empty.
  - simpl. apply not_elem_of_empty.
  - simpl. apply not_elem_of_empty.
  - reflexivity.
  - reflexivity.
Defined.

Lemma py_index_out_of_range (len : nat) (k : Z) :
  Z.of_nat len ≤ k ∨ k < - Z.of_nat len → py_index len k = None.
Proof.
  intros Hk. unfold py_index.
  destruct (0 <=? k) eqn:H1, (k <? Z.of_nat len) eqn:H2,
           (- Z.of_nat len <=? k) eqn:H3, (k <? 0) eqn:H4; simpl; try done; lia.
Qed.

Lemma py_index_wraps (len : nat) (k : Z) :
  - Z.of_nat len ≤ k < 0 → py_index len k = py_index len (k + Z.of_nat len).
Proof.
  intros Hk. unfold py_index.
  destruct (0 <=? k) eqn:H1; [lia|]. simpl.
  destruct (- Z.of_nat len <=? k) eqn:H3; [|lia].
  destruct (k <? 0) eqn:H4; [|lia]. simpl.
  destruct (0 <=? k + Z.of_nat len) eqn:H5; [|lia].
  destruct (k + Z.of_nat len <? Z.of_nat len) eqn:H6; [|lia]. done.
Qed.

(** X10. A channel number of 9 or more, or of -8 or less, addresses no slot:
    a switch that passes the checks logs the [IndexError] as a state change
    error and writes neither the state file nor the register. *)
Theorem channel_out_of_range_writes_nothing state s c :
  channel (this s) = Some c →
  c ≤ -8 ∨ 9 ≤ c →
  lock_file (this s) ∉ held (env s) →
  can_load (env s) (state_file (this s)) →
  length (load_states (env s) (state_file (this s))) = 8%nat →
  state = "on" ∨ state = "off" →
  let r := output_switch state s in
  r.1 = Normal () ∧
  EvLog Error (StateChangeError IndexError) ∈ events_since s r.2 ∧
  Forall (λ ev, is_output ev = false) (events_since s r.2) ∧
  files (env r.2) = files (env s) ∧
  regs (env r.2) = regs (env s).
Proof.
  intros Hc Hrange Hl Hr Hlen Hst r. subst r.
  assert (py_index 8 (c - 1) = None) as Hnone by (apply py_index_out_of_range; lia).
  rewrite (output_switch_index_error s state c) by done.
  erewrite events_since_app by (simpl; reflexivity). simpl.
  split_and!; try done.
  - rewrite elem_of_cons, elem_of_app, !elem_of_cons. auto 10.
  - constructor; [done|]. apply Forall_app. split; [apply read_events_no_output|].
    repeat constructor.
Qed.

Lemma channel_out_of_range_writes_nothing_witness :
  let s := mkSys (controller (Some 9) true) fresh_world in
  let r := output_switch "on" s in
  r.1 = Normal () ∧
  EvLog Error (StateChangeError IndexError) ∈ events_since s r.2 ∧
  Forall (λ ev, is_output ev = false) (events_since s r.2) ∧
  files (env r.2) = files (env s) ∧
  regs (env r.2) = regs (env s).
Proof.
  apply (channel_out_of_range_writes_nothing "on"
           (mkSys (controller (Some 9) true) fresh_world) 9).
  - reflexivity.
  - right. lia.
  - simpl. apply not_elem_of_empty.
  - intros _. simpl. apply not_elem_of_empty.
  - reflexivity.
  - left. reflexivity.
Defined.

(** X11. A channel number from -7 to 0 is a negative list index: the call
    does to the world exactly what it does for the channel number 8 higher
    (channel 0 switches the pin of channel 8). *)
Theorem channel_number_wraps_around state o w c :
  -7 ≤ c ≤ 0 →
  env (output_switch state (mkSys (with_channel (Some c) o) w)).2 =
  env (output_switch state (mkSys (with_channel (Some (c + 8)) o) w)).2.
Proof.
  intros Hc.
  assert (py_index 8 (c + 8 - 1) = py_index 8 (c - 1)) as Hidx.
  { rewrite (py_index_wraps 8 (c - 1)) by lia. f_equal. lia. }
  destruct (output_switch_paths state (mkSys (with_channel (Some c) o) w)) as
    [Hch|c' Hch Hl|c' Hch Hl Hf Hu|c' text Hch Hl Hr Hf Hlen|c' Hch Hl Hr Hlen Hon Hoff
    |c' Hch Hl Hr Hlen Hst Hi|c' i Hch Hl Hr Hlen Hst Hi Hw|c' i Hch Hl Hr Hlen Hst Hi Hw];
    simpl in *; try done; injection Hch as <-.
  - rewrite (output_switch_lock_timeout _ state c) by done.
    by rewrite (output_switch_lock_timeout _ state (c + 8)).
  - rewrite (output_switch_unreadable _ state c) by done.
    by rewrite (output_switch_unreadable _ state (c + 8)).
  - rewrite (output_switch_not_8 _ state c text) by done.
    by rewrite (output_switch_not_8 _ state (c + 8) text).
  - rewrite (output_switch_unrecognized _ state c) by done.
    by rewrite (output_switch_unrecognized _ state (c + 8)).
  - rewrite (output_switch_index_error _ state c) by done.
    by rewrite (output_switch_index_error _ state (c + 8)) by (by rewrite ?Hidx).
  - rewrite (output_switch_persist_fails _ state c i) by done.
    by rewrite (output_switch_persist_fails _ state (c + 8) i) by (by rewrite ?Hidx).
  - rewrite (output_switch_commit _ state c i) by done.
    by rewrite (output_switch_commit _ state (c + 8) i) by (by rewrite ?Hidx).
Qed.

Lemma channel_number_wraps_around_witness :
  env (output_switch "on" (mkSys (with_channel (Some 0) (controller None true))
                             world_committed)).2 =
  env (output_switch "on" (mkSys (with_channel (Some (0 + 8)) (controller None true))
                             world_committed)).2.
Proof. apply channel_number_wraps_around. lia. Defined.

(** X12. [output_state] is assigned before any writing: once the lock is
    obtained, the list loads with 8 entries and the request is on or off,
    [is_on] answers the requested level afterwards, whether or not the file
    and the register could be written. *)
Theorem is_on_follows_the_request state s c :
  output_setup (this s) = true →
  channel (this s) = Some c →
  lock_file (this s) ∉ held (env s) →
  can_load (env s) (state_file (this s)) →
  length (load_states (env s) (state_file (this s))) = 8%nat →
  state = "on" ∨ state = "off" →
  is_on (this (output_switch state s).2) =
  Some (physical_level state (output_on_state (this s))).
Proof.
  intros Hsetup Hc Hl Hr Hlen Hst.
  assert (∀ v, is_on (with_output_state (Some v) (this s)) = Some v) as Hon.
  { intros v. unfold is_on, is_setup. simpl. by rewrite Hsetup. }
  destruct (py_index 8 (c - 1)) as [i|] eqn:Hi.
  - destruct (decide (state_file (this s) ∈ unwritable (env s))).
    + rewrite (output_switch_persist_fails s state c i) by done. apply Hon.
    + rewrite (output_switch_commit s state c i) by done. apply Hon.
  - rewrite (output_switch_index_error s state c) by done. apply Hon.
Qed.

Lemma is_on_follows_the_request_witness :
  let s := mkSys (controller (Some 1) false) fresh_world in
  is_on (this (output_switch "on" s).2) =
  Some (physical_level "on" (output_on_state (this s))).
Proof.
  apply (is_on_follows_the_request "on" (mkSys (controller (Some 1) false) fresh_world) 1).
  - reflexivity.
  - reflexivity.
  - simpl. apply not_elem_of_empty.
  - intros _. simpl. apply not_elem_of_empty.
  - reflexivity.
  - left. reflexivity.
Defined.

(** X7. The state file is written before the byte is sent: when the transfer
    fails on an otherwise successful switch, the file already holds the new
    list while the register keeps the old byte. *)
Theorem bus_failure_leaves_record_ahead_of_register state s (i : nat) st :
  committed s st →
  channel (this s) = Some (Z.of_nat i + 1) → (i < 8)%nat →
  state = "on" ∨ state = "off" →
  lock_file (this s) ∉ held (env s) →
  can_load (env s) (state_file (this s)) →
  state_file (this s) ∉ unwritable (env s) →
  bus_down (env s) = true →
  let s' := (output_switch state s).2 in
  persisted s' = Some (<[i := Some (physical_level state (output_on_state (this s)))]> st) ∧
  regs (env s') !! address (sensor (this s')) = Some (port_byte st).
Proof.
  intros (Hload & Hlen & Hreg) Hc Hi Hst Hl Hr Hw Hbus s'. subst s'.
  rewrite (output_switch_commit s state _ i Hc Hl Hr Hw) by
    (rewrite ?Hload; auto using py_index_in_range).
  rewrite Hload, Hbus. unfold persisted. simpl.
  rewrite lookup_insert_eq. simpl. by rewrite read_write_states.
Qed.

Lemma bus_failure_leaves_record_ahead_of_register_witness :
  let s := mkSys (controller (Some 2) true) world_committed_bus_down in
  let s' := (output_switch "on" s).2 in
  persisted s' =
    Some (<[1%nat := Some (physical_level "on" (output_on_state (this s)))]> sample_states) ∧
  regs (env s') !! address (sensor (this s')) = Some (port_byte sample_states).
Proof.
  apply (bus_failure_leaves_record_ahead_of_register "on"
           (mkSys (controller (Some 2) true) world_committed_bus_down) 1%nat sample_states).
  - split_and!; reflexivity.
  - reflexivity.
  - lia.
  - left. reflexivity.
  - simpl. apply not_elem_of_empty.
  - intros _. simpl. apply not_elem_of_empty.
  - simpl. apply not_elem_of_empty.
  - reflexivity.
Defined.

(** ** The state file format at its edges *)

Lemma universal_newlines_write_states_app l rest :
  universal_newlines (write_states l +:+ rest) = write_states l +:+ universal_newlines rest.
Proof.
  induction l as [|[[]|] l IH]; [done|..]; rewrite write_states_cons; simpl; by rewrite IH.
Qed.

Lemma iter_lines_write_states_app l rest :
  iter_lines "" (write_states l +:+ rest) =
  ((λ ws, format_slot ws +:+ String LF EmptyString) <$> l) ++ iter_lines "" rest.
Proof.
  induction l as [|[[]|] l IH]; [done|..]; rewrite write_states_cons; simpl; by rewrite IH.
Qed.

(** X15. The read loop strips the last character of every line, so a final
    token that lacks its newline is not recognised: a file that ends with
    one reads as the list of the complete lines before it. *)
Theorem unterminated_last_token_is_dropped (l : list slot) (ws : slot) :
  read_states (write_states l +:+ format_slot ws) = l.
Proof.
  unfold read_states, file_lines.
  rewrite universal_newlines_write_states_app, iter_lines_write_states_app.
  rewrite fold_left_app, fold_read_line. simpl.
  by destruct ws as [[]|].
Qed.


(** ** The packed byte as a number *)

Lemma port_loop_nonneg value i acc :
  0 ≤ acc → 0 ≤ i → i + Z.of_nat (length value) ≤ 8 → 0 ≤ port_loop i value acc.
Proof.
  revert i acc. induction value as [|val rest IH]; intros i acc Hacc Hi Hlen; [done|].
  simpl in *. apply IH; [|lia|lia].
  destruct (truthy val); [|done].
  apply Z.lor_nonneg. split; [done|]. apply Z.shiftl_nonneg. lia.
Qed.

(** X16. The byte the port setter packs from a list of 8 entries lies in
    0..255. *)
Theorem port_byte_fits_a_byte (value : list slot) :
  length value = 8%nat → 0 ≤ port_byte value ≤ 255.
Proof.
  intros Hlen.
  assert (0 ≤ port_byte value) as Hnn by (apply port_loop_nonneg; lia).
  split; [done|].
  assert (port_byte value < 2 ^ 8); [|lia].
  apply Z.bounded_iff_bits_nonneg; [lia|done|].
  intros n Hn. by apply port_byte_high.
Qed.

Lemma port_byte_fits_a_byte_witness :
  0 ≤ port_byte sample_states ≤ 255.
Proof. apply port_byte_fits_a_byte. reflexivity. Defined.

(** X17. The port setter refuses a list whose length is not 8 with
    [AssertionError], before anything is sent. *)
Theorem port_setter_rejects_other_lengths (self : PCF8574) (value : list slot) (s : Sys) :
  length value ≠ 8%nat →
  port_setter self value s = (Raised AssertionError, s).
Proof.
  intros Hlen. unfold port_setter, assert_, mbind, M_bind, raise.
  by rewrite bool_decide_false.
Qed.

Lemma port_setter_rejects_other_lengths_witness :
  port_setter chip0 [Some true; None] (mkSys (controller (Some 1) true) fresh_world) =
  (Raised AssertionError, mkSys (controller (Some 1) true) fresh_world).
Proof. apply port_setter_rejects_other_lengths. simpl. lia. Defined.

(** ** Shutdown *)

(** X28. [stop_output] always completes with [running] cleared and the
    policies untouched: it switches on for the shutdown policy ['1'], off
    for ['0'], does nothing to the world for any other value, and no
    failure of the switch keeps it from clearing the flag. *)
Theorem stop_output_always_clears_running (life : Lifecycle) (s : Sys) :
  let r := stop_output life s in
  r.1 = Normal (mkLifecycle (state_startup life) (state_shutdown life) false) ∧
  r.2 = (if is_literal (state_shutdown life) "1" then (output_switch "on" s).2
         else if is_literal (state_shutdown life) "0" then (output_switch "off" s).2
         else s).
Proof.
  unfold stop_output, mbind, M_bind. simpl.
  destruct (is_literal (state_shutdown life) "1"); [|destruct (is_literal _ "0")].
  - pose proof (output_switch_returns_none "on" s) as Hret.
    destruct (output_switch "on" s) as [[[]| |] s']; by simpl in *.
  - pose proof (output_switch_returns_none "off" s) as Hret.
    destruct (output_switch "off" s) as [[[]| |] s']; by simpl in *.
  - done.
Qed.

(** ** Single pins: [set_output] and the port read back *)

(** The byte [set_output] computes from the byte it read. *)
Lemma set_output_run (self : PCF8574) (n : Z) (value : slot) (s : Sys) (cur : Z) :
  0 ≤ n < 8 →
  bus_down (env s) = false →
  regs (env s) !! address self = Some cur →
  let bit := Z.shiftl 1 (7 - n) in
  let new_state :=
    if truthy value then Z.lor cur bit else Z.land cur (Z.land (Z.lnot bit) 255) in
  set_output self n value s =
  (Normal (),
   mkSys (this s)
     (with_regs (<[address self := new_state]> (regs (env s)))
        (with_event (EvBusWrite (address self) new_state) (env s)))).
Proof.
  intros Hn Hbus Hreg. destruct s as [o [fs hd rg ur uw bd tr]]. simpl in *. subst bd.
  unfold set_output, assert_, read_byte, write_byte, mbind, M_bind, mret, M_ret. simpl.
  rewrite bool_decide_true by done. cbn [bus_down env regs this]. by rewrite Hreg.
Qed.

Lemma testbit_255 (m : Z) : 0 ≤ m → Z.testbit 255 m = bool_decide (m < 8).
Proof.
  intros Hm. change 255 with (Z.ones 8).
  case_bool_decide.
  - apply Z.ones_spec_low. lia.
  - apply Z.ones_spec_high. lia.
Qed.

Lemma set_bit_testbit (cur n m : Z) (b : bool) :
  0 ≤ n < 8 → 0 ≤ m →
  Z.testbit
    (if b then Z.lor cur (Z.shiftl 1 (7 - n))
     else Z.land cur (Z.land (Z.lnot (Z.shiftl 1 (7 - n))) 255)) m =
  if bool_decide (m = 7 - n) then b
  else if b then Z.testbit cur m else Z.testbit cur m && bool_decide (m < 8).
Proof.
  intros Hn Hm. destruct b.
  - rewrite Z.lor_spec, testbit_one_shifted by lia.
    case_bool_decide; [by rewrite orb_true_r | by rewrite orb_false_r].
  - rewrite !Z.land_spec, Z.lnot_spec, testbit_one_shifted, testbit_255 by lia.
    case_bool_decide; simpl; [by rewrite andb_false_r | done].
Qed.

(** X18. [set_output] on pin [n] of a register holding a byte: one byte is
    sent, it is again a byte, its bit [7 - n] is the requested level and all
    its other bits are those of the byte that was read. *)
Theorem set_output_changes_one_bit (self : PCF8574) (n : Z) (value : slot) (s : Sys)
    (cur : Z) :
  0 ≤ n < 8 →
  bus_down (env s) = false →
  regs (env s) !! address self = Some cur →
  0 ≤ cur ≤ 255 →
  let r := set_output self n value s in
  r.1 = Normal () ∧
  ∃ byte,
    bus_writes (events_since s r.2) = [(address self, byte)] ∧
    regs (env r.2) !! address self = Some byte ∧
    0 ≤ byte ≤ 255 ∧
    Z.testbit byte (7 - n) = truthy value ∧
    ∀ m, 0 ≤ m → m ≠ 7 - n → Z.testbit byte m = Z.testbit cur m.
Proof.
  intros Hn Hbus Hreg Hcur r. subst r.
  rewrite (set_output_run self n value s cur) by done. cbv zeta.
  split; [done|].
  exists (if truthy value then Z.lor cur (Z.shiftl 1 (7 - n))
          else Z.land cur (Z.land (Z.lnot (Z.shiftl 1 (7 - n))) 255)).
  split; [|split; [|split; [|split]]].
  - erewrite events_since_app by (simpl; reflexivity). done.
  - simpl. apply lookup_insert_eq.
  - assert (∀ m, 8 ≤ m → Z.testbit cur m = false) as Hhigh.
    { apply Z.bounded_iff_bits_nonneg; lia. }
    assert (0 ≤ (if truthy value then Z.lor cur (Z.shiftl 1 (7 - n))
                 else Z.land cur (Z.land (Z.lnot (Z.shiftl 1 (7 - n))) 255))) as Hnn.
    { destruct (truthy value).
      - apply Z.lor_nonneg. split; [lia|]. apply Z.shiftl_nonneg. lia.
      - apply Z.land_nonneg. left. lia. }
    split; [done|].
    match goal with |- ?b ≤ 255 => assert (b < 2 ^ 8); [|lia] end.
    apply Z.bounded_iff_bits_nonneg; [lia|done|].
    intros m Hm. rewrite set_bit_testbit by lia.
    rewrite bool_decide_false by lia. rewrite Hhigh by done.
    by destruct (truthy value).
  - rewrite set_bit_testbit by lia. by rewrite bool_decide_true.
  - intros m Hm Hne. rewrite set_bit_testbit by lia.
    rewrite bool_decide_false by done.
    destruct (truthy value); [done|].
    case_bool_decide; [by rewrite andb_true_r|].
    assert (Z.testbit cur m = false) as ->; [|done].
    apply (Z.bounded_iff_bits_nonneg 8); lia.
Qed.

Lemma set_output_changes_one_bit_witness :
  let s := mkSys (controller (Some 1) true) (world_with_register 145) in
  let r := set_output chip0 2 (Some true) s in
  r.1 = Normal () ∧
  ∃ byte,
    bus_writes (events_since s r.2) = [(address chip0, byte)] ∧
    regs (env r.2) !! address chip0 = Some byte ∧
    0 ≤ byte ≤ 255 ∧
    Z.testbit byte (7 - 2) = truthy (Some true) ∧
    ∀ m, 0 ≤ m → m ≠ 7 - 2 → Z.testbit byte m = Z.testbit 145 m.
Proof.
  apply (set_output_changes_one_bit chip0 2 (Some true)
           (mkSys (controller (Some 1) true) (world_with_register 145)) 145).
  - lia.
  - reflexivity.
  - reflexivity.
  - lia.
Defined.

(** X21. Setting the same pin to the same level a second time succeeds and
    leaves the register as the first call left it. *)
Theorem set_output_twice_same_register (self : PCF8574) (n : Z) (value : slot) (s : Sys)
    (cur : Z) :
  0 ≤ n < 8 →
  bus_down (env s) = false →
  regs (env s) !! address self = Some cur →
  let s1 := (set_output self n value s).2 in
  let r2 := set_output self n value s1 in
  r2.1 = Normal () ∧ regs (env r2.2) = regs (env s1).
Proof.
  intros Hn Hbus Hreg s1 r2. subst s1 r2.
  rewrite (set_output_run self n value s cur) by done. cbv zeta.
  erewrite set_output_run; [|done|done|simpl; apply lookup_insert_eq].
  cbv zeta. simpl. split; [done|].
  rewrite insert_insert_eq. f_equal.
  destruct (truthy value).
  - by rewrite <- Z.lor_assoc, Z.lor_diag.
  - by rewrite <- Z.land_assoc, Z.land_diag.
Qed.

Lemma set_output_twice_same_register_witness :
  let s := mkSys (controller (Some 1) true) (world_with_register 145) in
  let s1 := (set_output chip0 7 None s).2 in
  let r2 := set_output chip0 7 None s1 in
  r2.1 = Normal () ∧ regs (env r2.2) = regs (env s1).
Proof.
  apply (set_output_twice_same_register chip0 7 None
           (mkSys (controller (Some 1) true) (world_with_register 145)) 145).
  - lia.
  - reflexivity.
  - reflexivity.
Defined.

(** X22. When the register holds the byte packed from a list of 8 entries,
    [set_output] on pin [n] leaves the byte packed from the list with entry
    [n] replaced: changing one pin in the register and changing one entry of
    the list before packing give the same byte. *)
Theorem set_output_agrees_with_port_setter (self : PCF8574) (n : nat) (value : slot)
    (s : Sys) (l : list slot) :
  length l = 8%nat → (n < 8)%nat →
  bus_down (env s) = false →
  regs (env s) !! address self = Some (port_byte l) →
  regs (env (set_output self (Z.of_nat n) value s).2) !! address self =
  Some (port_byte (<[n := value]> l)).
Proof.
  intros Hlen Hn Hbus Hreg.
  rewrite (set_output_run self (Z.of_nat n) value s (port_byte l)) by (done || lia).
  cbv zeta. simpl. rewrite lookup_insert_eq. f_equal.
  apply Z.bits_inj'. intros m Hm.
  rewrite set_bit_testbit by lia.
  destruct (decide (8 ≤ m)) as [Hhigh|Hlow].
  - rewrite !port_byte_high by (by rewrite ?length_insert).
    rewrite bool_decide_false by lia. rewrite (bool_decide_false (m < 8)) by lia.
    by destruct (truthy value).
  - remember (Z.to_nat (7 - m)) as j eqn:Hj.
    assert (m = 7 - Z.of_nat j) as Hmj by lia. rewrite Hmj.
    rewrite !port_byte_testbit by (rewrite ?length_insert; lia).
    rewrite (bool_decide_true (_ < 8)) by lia. rewrite andb_true_r.
    case_bool_decide as Hm'.
    + assert (j = n) as -> by lia.
      unfold slot_bit. by rewrite list_lookup_insert_eq by lia.
    + rewrite slot_bit_insert_ne by lia. by destruct (truthy value).
Qed.

Lemma set_output_agrees_with_port_setter_witness :
  regs (env (set_output chip0 (Z.of_nat 1) (Some true)
               (mkSys (controller (Some 1) true)
                  (world_with_register (port_byte sample_states)))).2) !! address chip0 =
  Some (port_byte (<[1%nat := Some true]> sample_states)).
Proof.
  apply (set_output_agrees_with_port_setter chip0 1 (Some true)
           (mkSys (controller (Some 1) true) (world_with_register (port_byte sample_states)))
           sample_states).
  - reflexivity.
  - lia.
  - reflexivity.
  - reflexivity.
Defined.

(** ** Unpacking the port *)

Lemma land_one_shifted_eqb (a k : Z) :
  0 ≤ k → (Z.land a (Z.shiftl 1 k) =? 0) = negb (Z.testbit a k).
Proof.
  intros Hk. destruct (Z.testbit a k) eqn:Hbit; simpl.
  - apply Z.eqb_neq. intros Hzero.
    assert (Z.testbit (Z.land a (Z.shiftl 1 k)) k = true) as Habs.
    { rewrite Z.land_spec, Hbit, testbit_one_shifted by lia. by rewrite bool_decide_true. }
    rewrite Hzero, Z.bits_0 in Habs. done.
  - apply Z.eqb_eq. apply Z.bits_inj'. intros m Hm.
    rewrite Z.land_spec, Z.bits_0, testbit_one_shifted by lia.
    case_bool_decide; [subst; by rewrite Hbit | by rewrite andb_false_r].
Qed.

Lemma pin_bit_testbit (state : Z) (i : nat) :
  (i < 8)%nat → pin_bit state i = Z.testbit state (7 - Z.of_nat i).
Proof.
  intros Hi. unfold pin_bit. rewrite land_one_shifted_eqb by lia. by rewrite negb_involutive.
Qed.

Lemma port_bits_lookup (state : Z) (i : nat) :
  (i < 8)%nat → port_bits state !! i = Some (Z.testbit state (7 - Z.of_nat i)).
Proof.
  intros Hi. unfold port_bits.
  rewrite list_lookup_fmap, lookup_seq_lt by done. simpl.
  by rewrite pin_bit_testbit.
Qed.

Lemma port_bits_length (state : Z) : length (port_bits state) = 8%nat.
Proof. done. Qed.

Lemma port_bits_port_byte (value : list slot) :
  length value = 8%nat → port_bits (port_byte value) = truthy <$> value.
Proof.
  intros Hlen. apply list_eq. intros i.
  destruct (decide (i < 8)%nat) as [Hi|Hi].
  - rewrite port_bits_lookup, port_byte_testbit by done.
    rewrite list_lookup_fmap. unfold slot_bit.
    destruct (value !! i) eqn:Hv; [done|].
    apply lookup_ge_None in Hv. lia.
  - rewrite !lookup_ge_None_2; [done|rewrite length_fmap; lia|rewrite port_bits_length; lia].
Qed.

(** X23. Unpacking, as [IOPort.__repr__] does, the byte packed from a list of
    8 entries gives back the truth values of the entries in order. *)
Theorem port_bits_of_port_byte (value : list slot) :
  length value = 8%nat → port_bits (port_byte value) = truthy <$> value.
Proof. apply port_bits_port_byte. Qed.

Lemma port_bits_of_port_byte_witness :
  port_bits (port_byte sample_states) = truthy <$> sample_states.
Proof. apply port_bits_of_port_byte. reflexivity. Defined.

(** X24. Packing the list unpacked from a byte gives the byte back, for every
    byte 0..255. *)
Theorem port_byte_of_port_bits (state : Z) :
  0 ≤ state ≤ 255 → port_byte (Some <$> port_bits state) = state.
Proof.
  intros Hstate.
  assert (length (Some <$> port_bits state) = 8%nat) as Hlen by done.
  apply Z.bits_inj'. intros m Hm.
  destruct (decide (8 ≤ m)) as [Hhigh|Hlow].
  - rewrite port_byte_high by done. symmetry.
    apply (Z.bounded_iff_bits_nonneg 8); lia.
  - remember (Z.to_nat (7 - m)) as j eqn:Hj.
    assert (m = 7 - Z.of_nat j) as Hmj by lia. rewrite Hmj.
    rewrite port_byte_testbit by (done || lia).
    unfold slot_bit. rewrite list_lookup_fmap, port_bits_lookup by lia. simpl. by destruct (Z.testbit state _).
Qed.

Lemma port_byte_of_port_bits_witness :
  port_byte (Some <$> port_bits 145) = 145.
Proof. apply port_byte_of_port_bits. lia. Defined.

Example repr_list_sample : repr_list [true; false; true] = "[True, False, True]".
Proof. reflexivity. Qed.

(** X25. After the port is set from a list of 8 entries on a working bus,
    the representation of the port object is that of the list of their truth
    values, and reading it changes nothing. *)
Theorem port_reads_back_what_was_set (self : PCF8574) (value : list slot) (s : Sys) :
  length value = 8%nat →
  bus_down (env s) = false →
  let s' := (port_setter self value s).2 in
  IOPort_repr (port_getter self) s' = (Normal (repr_list (truthy <$> value)), s').
Proof.
  intros Hlen Hbus s'. subst s'.
  rewrite port_setter_run by done. rewrite Hbus. cbv zeta.
  unfold IOPort_repr, read_byte, mbind, M_bind, mret, M_ret. simpl.
  rewrite Hbus, lookup_insert_eq. by rewrite port_bits_port_byte.
Qed.

Lemma port_reads_back_what_was_set_witness :
  let s := mkSys (controller (Some 1) true) fresh_world in
  let s' := (port_setter chip0 sample_states s).2 in
  IOPort_repr (port_getter chip0) s' = (Normal (repr_list (truthy <$> sample_states)), s').
Proof.
  apply (port_reads_back_what_was_set chip0 sample_states
           (mkSys (controller (Some 1) true) fresh_world)).
  - reflexivity.
  - reflexivity.
Defined.

(** ** The port object as a sequence *)

(** X19. Assigning to an item of the port with a key outside 0..7, a
    negative one included, raises [AssertionError] and leaves the world
    untouched: the port does not index from the end as a list does. *)
Theorem port_item_assignment_rejects_other_keys (p : IOPort) (key : Z) (value : slot)
    (s : Sys) :
  key < 0 ∨ 8 ≤ key →
  IOPort_setitem p key value s = (Raised AssertionError, s).
Proof.
  intros Hkey. unfold IOPort_setitem, set_output, assert_, mbind, M_bind, raise.
  rewrite bool_decide_false by lia. done.
Qed.

Lemma port_item_assignment_rejects_other_keys_witness :
  IOPort_setitem (port_getter chip0) (-1) (Some true)
    (mkSys (controller (Some 1) true) (world_with_register 145)) =
  (Raised AssertionError, mkSys (controller (Some 1) true) (world_with_register 145)).
Proof. apply port_item_assignment_rejects_other_keys. left. lia. Defined.

Lemma list_getitem_in_range {A : Type} (l : list A) (k : Z) :
  0 ≤ k < Z.of_nat (length l) → list_getitem l k = l !! Z.to_nat k.
Proof.
  intros Hk. unfold list_getitem, py_index.
  destruct (0 <=? k) eqn:H1; [|lia].
  destruct (k <? Z.of_nat (length l)) eqn:H2; [|lia]. done.
Qed.

Lemma yield_items_in_range (l : list slot) (ks : list Z) :
  Forall (λ k, 0 ≤ k < Z.of_nat (length l)) ks →
  yield_items l ks = (omap (λ k, l !! Z.to_nat k) ks, None).
Proof.
  induction 1 as [|k ks Hk _ IH]; [done|].
  simpl. rewrite list_getitem_in_range, IH by done.
  destruct (l !! Z.to_nat k) eqn:Hlk; [done|].
  apply lookup_ge_None in Hlk. lia.
Qed.

(** X26. The port object reports length 8 whatever its underlying list holds;
    when that list has fewer than 8 items, as for the object the [port]
    property builds, iterating yields the items there are and ends with
    [IndexError], and iterating in reverse ends with [IndexError] at once. *)
Theorem short_port_cannot_be_iterated (p : IOPort) :
  (length (items p) < 8)%nat →
  IOPort_len p = 8 ∧
  IOPort_iter p = (items p, Some IndexError) ∧
  IOPort_reversed p = ([], Some IndexError).
Proof.
  intros Hlen. destruct p as [l chip]. simpl in Hlen.
  split; [done|].
  do 8 (destruct l as [|? l]; [by split|]).
  simpl in Hlen. lia.
Qed.

Lemma short_port_cannot_be_iterated_witness :
  IOPort_len (port_getter chip0) = 8 ∧
  IOPort_iter (port_getter chip0) = (items (port_getter chip0), Some IndexError) ∧
  IOPort_reversed (port_getter chip0) = ([], Some IndexError).
Proof. apply short_port_cannot_be_iterated. simpl. lia. Defined.

(** X27. When the underlying list has at least 8 items, iterating the port
    yields its first 8 items and iterating in reverse yields the same items in
    the opposite order, both without an exception. *)
Theorem full_port_reversed_is_reverse_of_iteration (p : IOPort) :
  (8 ≤ length (items p))%nat →
  IOPort_iter p = (take 8 (items p), None) ∧
  IOPort_reversed p = (reverse (take 8 (items p)), None).
Proof.
  intros Hlen. destruct p as [l chip]. simpl in Hlen.
  unfold IOPort_iter, IOPort_reversed. simpl items.
  rewrite !yield_items_in_range by (repeat constructor; lia).
  do 8 (destruct l as [|? l]; [simpl in Hlen; lia|]).
  done.
Qed.

Lemma full_port_reversed_is_reverse_of_iteration_witness :
  IOPort_iter (mkIOPort sample_states chip0) = (take 8 sample_states, None) ∧
  IOPort_reversed (mkIOPort sample_states chip0) = (reverse (take 8 sample_states), None).
Proof.
  apply (full_port_reversed_is_reverse_of_iteration (mkIOPort sample_states chip0)).
  simpl. lia.
Defined.

(** ** Order of the events of a call *)

Lemma lock_discipline_plain lock evs rest :
  Forall (λ ev, is_plain ev = true) evs →
  lock_discipline lock Holding (evs ++ rest) = lock_discipline lock Holding rest.
Proof.
  induction 1 as [|ev evs Hev _ IH]; [done|].
  destruct ev; simpl in *; try done; by rewrite ?orb_true_r.
Qed.

Lemma read_events_plain w path : Forall (λ ev, is_plain ev = true) (read_events w path).
Proof. unfold read_events. destruct (bool_decide _); repeat constructor. Qed.

Lemma write_events_plain path l : Forall (λ ev, is_plain ev = true) (write_event path <$> l).
Proof. induction l; constructor; done. Qed.

(** What the discipline refuses: a second session, a lock file that is not
    the controller's, a second attempt after a refusal, a file access after
    the release, and a lock that is never released. *)
Example lock_discipline_refuses :
  lock_discipline "l" NotTried [EvLock "l" true; EvUnlock "l"; EvLock "l" true; EvUnlock "l"]
    = false ∧
  lock_discipline "l" NotTried [EvLock "other" true; EvUnlock "other"] = false ∧
  lock_discipline "l" NotTried [EvLock "l" false; EvLock "l" false] = false ∧
  lock_discipline "l" NotTried [EvLock "l" true; EvUnlock "l"; EvOpenRead "f"] = false ∧
  lock_discipline "l" NotTried [EvExists "f"; EvLock "l" true; EvUnlock "l"] = false ∧
  lock_discipline "l" NotTried [EvLock "l" true; EvBusWrite 32 0] = false.
Proof. repeat split. Qed.

(** X3. The events of any call keep the lock discipline for the lock file of
    the controller: the lock is asked for at most once and no other lock
    file is; the state file and the bus are touched only between the granted
    acquisition and the one release that follows it; nothing is touched and
    nothing is locked again after the release or after a refusal. *)
Theorem output_switch_touches_nothing_without_the_lock state s :
  lock_discipline (lock_file (this s)) NotTried
    (events_since s (output_switch state s).2) = true.
Proof.
  destruct (output_switch_paths state s) as
    [Hc|c Hc Hl|c Hc Hl Hf Hu|c text Hc Hl Hr Hf Hlen|c Hc Hl Hr Hlen Hon Hoff
    |c Hc Hl Hr Hlen Hst Hi|c i Hc Hl Hr Hlen Hst Hi Hw|c i Hc Hl Hr Hlen Hst Hi Hw].
  - rewrite output_switch_no_channel by done.
    by erewrite events_since_app by (simpl; reflexivity).
  - erewrite output_switch_lock_timeout by done.
    erewrite events_since_app by (simpl; reflexivity). simpl.
    by rewrite String.eqb_refl.
  - erewrite output_switch_unreadable by done.
    erewrite events_since_app by (simpl; reflexivity). simpl.
    by rewrite String.eqb_refl.
  - erewrite output_switch_not_8 by done.
    erewrite events_since_app by (simpl; reflexivity). simpl.
    by rewrite String.eqb_refl.
  - erewrite output_switch_unrecognized by done.
    erewrite events_since_app by (simpl; reflexivity). simpl.
    rewrite lock_discipline_plain by apply read_events_plain. simpl.
    by rewrite String.eqb_refl.
  - erewrite output_switch_index_error by done.
    erewrite events_since_app by (simpl; reflexivity). simpl.
    rewrite lock_discipline_plain by apply read_events_plain. simpl.
    by rewrite String.eqb_refl.
  - erewrite output_switch_persist_fails by done.
    erewrite events_since_app by (simpl; reflexivity). simpl.
    rewrite lock_discipline_plain by apply read_events_plain. simpl.
    by rewrite String.eqb_refl.
  - erewrite output_switch_commit by done.
    erewrite events_since_app by (simpl; reflexivity). simpl.
    rewrite lock_discipline_plain by apply read_events_plain. simpl.
    rewrite lock_discipline_plain by apply write_events_plain. simpl.
    rewrite String.eqb_refl. by destruct (bus_down (env s)).
Qed.

(** X13. Without a channel the call only logs the error: the lock is not
    asked for, no file and no register is touched, nothing changes. *)
Theorem unconfigured_channel_only_logs state s :
  channel (this s) = None →
  let r := output_switch state s in
  r.1 = Normal () ∧
  events_since s r.2 = [EvLog Error NoChannel] ∧
  this r.2 = this s ∧
  files (env r.2) = files (env s) ∧
  regs (env r.2) = regs (env s) ∧
  held (env r.2) = held (env s).
Proof.
  intros Hc r. subst r. rewrite output_switch_no_channel by done.
  by erewrite events_since_app by (simpl; reflexivity).
Qed.

Lemma unconfigured_channel_only_logs_witness :
  let s := mkSys (controller None true) world_committed in
  let r := output_switch "on" s in
  r.1 = Normal () ∧
  events_since s r.2 = [EvLog Error NoChannel] ∧
  this r.2 = this s ∧
  files (env r.2) = files (env s) ∧
  regs (env r.2) = regs (env s) ∧
  held (env r.2) = held (env s).
Proof.
  apply (unconfigured_channel_only_logs "on" (mkSys (controller None true) world_committed)).
  reflexivity.
Defined.

(** X14. When the state file exists but cannot be opened for reading, the
    [OSError] is logged as a state change error; nothing is written and the
    controller object is unchanged. *)
Theorem unreadable_record_stops_the_switch state s c :
  channel (this s) = Some c →
  lock_file (this s) ∉ held (env s) →
  is_Some (files (env s) !! state_file (this s)) →
  state_file (this s) ∈ unreadable (env s) →
  let r := output_switch state s in
  r.1 = Normal () ∧
  EvLog Error (StateChangeError (OSError (File (state_file (this s))))) ∈ events_since s r.2 ∧
  Forall (λ ev, is_output ev = false) (events_since s r.2) ∧
  this r.2 = this s ∧
  files (env r.2) = files (env s) ∧
  regs (env r.2) = regs (env s).
Proof.
  intros Hc Hl Hf Hu r. subst r.
  rewrite (output_switch_unreadable s state c) by done.
  erewrite events_since_app by (simpl; reflexivity). simpl.
  split_and!; try done.
  - rewrite !elem_of_cons. auto 10.
  - repeat constructor.
Qed.

Lemma unreadable_record_stops_the_switch_witness :
  let s := mkSys (controller (Some 1) true)
             (mkWorld {[ "/var/lock/pcf8574_1_0x20.states" := write_states sample_states ]}
                ∅ ∅ {[ "/var/lock/pcf8574_1_0x20.states" ]} ∅ false []) in
  let r := output_switch "on" s in
  r.1 = Normal () ∧
  EvLog Error (StateChangeError (OSError (File (state_file (this s))))) ∈ events_since s r.2 ∧
  Forall (λ ev, is_output ev = false) (events_since s r.2) ∧
  this r.2 = this s ∧
  files (env r.2) = files (env s) ∧
  regs (env r.2) = regs (env s).
Proof.
  apply (unreadable_record_stops_the_switch "on"
           (mkSys (controller (Some 1) true)
              (mkWorld {[ "/var/lock/pcf8574_1_0x20.states" := write_states sample_states ]}
                 ∅ ∅ {[ "/var/lock/pcf8574_1_0x20.states" ]} ∅ false [])) 1).
  - reflexivity.
  - simpl. apply not_elem_of_empty.
  - simpl. rewrite lookup_singleton_eq. eauto.
  - simpl. apply elem_of_singleton. reflexivity.
Defined.

(** X20. When the bus fails, [set_output] ends with the [OSError] of the
    read; no byte is sent and the world is unchanged. *)
Theorem set_output_sends_nothing_when_the_read_fails (self : PCF8574) (n : Z)
    (value : slot) (s : Sys) :
  0 ≤ n < 8 →
  bus_down (env s) = true →
  set_output self n value s = (Raised (OSError (Chip (address self))), s).
Proof.
  intros Hn Hbus.
  unfold set_output, assert_, read_byte, mbind, M_bind, mret, M_ret.
  rewrite bool_decide_true by done. by rewrite Hbus.
Qed.

Lemma set_output_sends_nothing_when_the_read_fails_witness :
  set_output chip0 3 (Some true) (mkSys (controller (Some 1) true) world_bus_down) =
  (Raised (OSError (Chip (address chip0))), mkSys (controller (Some 1) true) world_bus_down).
Proof.
  apply set_output_sends_nothing_when_the_read_fails.
  - lia.
  - reflexivity.
Defined.
